(** * Applied machine-learning tutorials: the repository's own code

    The repository holds four documents: a scikit-learn pipelines notebook,
    an R-markdown document of classification recipes, a notebook on
    Truncated Backpropagation Through Time, and a notebook on Keras word
    embedding layers.  Almost every statement is a call into a library;
    the code the repository's authors wrote themselves is the pair of
    loops of the pre-trained GloVe example:

    - the loading loop, which reads [glove.6B.100d.txt] line by line into
      the dictionary [embeddings_index];
    - the weight-matrix loop, which copies the vectors of the words of
      [t.word_index] into the rows of [embedding_matrix].

    Part 1 embeds these two loops as executable functions over an error
    monad, first with Python's and NumPy's operations modelled, then over
    any behaviour of the operations they call.  Part 2 transcribes every
    code cell of every document as a syntax tree, over which the
    repository-wide properties (control constructs, what the statements
    read and print, handlers, keyword arguments, names, the way from the
    loaded data to the printed score) are computed, and the output that
    the notebooks have stored for the cells that were run. *)

From Stdlib Require Import Ascii String ZArith DecimalString.
From stdpp Require Import gmap strings list fin_maps pretty.

#[local] Set Warnings "-clear-no-such-hyp".

Local Open Scope string_scope.
Local Open Scope list_scope.

(** ** Exceptions and the error monad *)

Module Py.

(** The exception classes the modelled statements can raise.  The
    classes of the failures of [open] and of reading a file are the
    operating system's and the codec's to choose: [OtherError] stands for
    any class that has no constructor of its own. *)
Inductive exn : Type :=
| IndexError
| ValueError
| FileNotFoundError
| OverflowError
| UnicodeDecodeError
| OtherError (class : string).

(** Where an exception is raised: inside a function the script calls
    ([open], the reader of the open file, [asarray], the row store of a
    NumPy array), or by an operator that a repository statement applies to
    a plain Python list. *)
Inductive origin : Type :=
| InLibraryCall (fn : string)
| AtRepositoryLine (src : string).

Record failure : Type := Failure { raised : exn; raised_by : origin }.

Inductive result (A : Type) : Type :=
| Ok (a : A)
| Raise (e : failure).
Arguments Ok {A} a.
Arguments Raise {A} e.

Definition bind {A B : Type} (m : result A) (k : A -> result B) : result B :=
  match m with
  | Ok a => k a
  | Raise e => Raise e
  end.

Notation "x <- m ;; k" := (bind m (fun x => k))
  (at level 100, m at next level, right associativity).

(** [for x in xs: acc = body(acc, x)]; the first exception leaves the loop. *)
Fixpoint for_each {A S : Type} (body : S -> A -> result S) (xs : list A) (acc : S)
  : result S :=
  match xs with
  | [] => Ok acc
  | x :: xs' => acc' <- body acc x ;; for_each body xs' acc'
  end.

Global Instance exn_eq_dec : EqDecision exn.
Proof. solve_decision. Defined.
Global Instance origin_eq_dec : EqDecision origin.
Proof. solve_decision. Defined.
Global Instance failure_eq_dec : EqDecision failure.
Proof. solve_decision. Defined.

(** ** Built-in strings and lists *)

(** [str.isspace] on the code points below 256: tab to carriage return,
    the four separators 28-31, the space, NEL (133) and the no-break
    space (160). *)
Definition is_space (c : ascii) : bool :=
  let n := N_of_ascii c in
  ((9 <=? n) && (n <=? 13) || (28 <=? n) && (n <=? 32)
   || (n =? 133) || (n =? 160))%N.

(** [str.split()] without arguments: the maximal runs of non-space
    characters, in order; [tok] is the run being read, reversed. *)
Fixpoint split_go (tok : list ascii) (s : list ascii) : list (list ascii) :=
  match s with
  | [] => match tok with [] => [] | _ :: _ => [rev tok] end
  | c :: s' =>
      if is_space c then
        match tok with
        | [] => split_go [] s'
        | _ :: _ => rev tok :: split_go [] s'
        end
      else split_go (c :: tok) s'
  end.

Definition split (line : string) : list string :=
  string_of_list_ascii <$> split_go [] (list_ascii_of_string line).

(** A line made of white space only (the empty line included). *)
Definition blank (line : string) : bool :=
  forallb is_space (list_ascii_of_string line).

(** [l[i]] on a Python list: negative indices count from the end, an
    index outside [-len, len) raises IndexError at the subscript. *)
Definition getitem {A : Type} (src : string) (l : list A) (i : Z) : result A :=
  let n := Z.of_nat (length l) in
  let k := (if i <? 0 then i + n else i)%Z in
  if (k <? 0)%Z then Raise (Failure IndexError (AtRepositoryLine src))
  else match l !! Z.to_nat k with
       | Some a => Ok a
       | None => Raise (Failure IndexError (AtRepositoryLine src))
       end.

End Py.

Import Py.

(** ** NumPy arrays *)

Module Numpy.

Section Arrays.

(** The float type and the parser of a decimal literal are NumPy's; the
    loops only move the parsed values around.  (Storing float32 values
    into the float64 matrix converts them exactly, so one type [F] stands
    for both.) *)
Context {F : Type} (parse_float : string -> option F) (zero : F).

(** [asarray(values, dtype='float32')] on a list of strings: the parsed
    numbers, or ValueError when one string is not a number. *)
Definition asarray (values : list string) : result (list F) :=
  match mapM parse_float values with
  | Some a => Ok a
  | None => Raise (Failure ValueError (InLibraryCall "asarray"))
  end.

(** [zeros((rows, cols))]. *)
Definition zeros (rows cols : nat) : list (list F) :=
  replicate rows (replicate cols zero).

(** Broadcasting a one-dimensional value into a row of [cols] columns:
    a vector of that length is copied, a vector of length one is repeated,
    any other shape raises ValueError. *)
Definition broadcast_row (cols : nat) (v : list F) : result (list F) :=
  if decide (length v = cols) then Ok v
  else match v with
       | [x] => Ok (replicate cols x)
       | _ => Raise (Failure ValueError (InLibraryCall "ndarray.__setitem__"))
       end.

(** NumPy converts an index to the signed 64-bit [npy_intp] before it
    looks at the array. *)
Definition fits_intp (i : Z) : bool := ((- 2 ^ 63 <=? i) && (i <? 2 ^ 63))%Z.

(** [M[i] = v] on a two-dimensional array: the row index wraps once when
    negative; outside [-rows, rows) it raises IndexError, or OverflowError
    when the Python integer does not convert to [npy_intp].  (An array has
    fewer than [2 ^ 63] rows, so an index inside [-rows, rows) always
    converts.) *)
Definition setitem_row (M : list (list F)) (i : Z) (v : list F)
  : result (list (list F)) :=
  let n := Z.of_nat (length M) in
  let k := Z.to_nat (if i <? 0 then i + n else i)%Z in
  if ((i <? - n) || (n <=? i))%Z then
    Raise (Failure (if fits_intp i then IndexError else OverflowError)
                   (InLibraryCall "ndarray.__setitem__"))
  else match M !! k with
       | Some old => row <- broadcast_row (length old) v ;; Ok (<[k := row]> M)
       | None => Raise (Failure IndexError (InLibraryCall "ndarray.__setitem__"))
       end.

End Arrays.

End Numpy.

Import Numpy.

(** ** The pre-trained GloVe example *)

Module Glove.

Section Listing.

Context {F : Type} (parse_float : string -> option F) (zero : F).

(** What a path of the file system does to a script that opens it for
    reading as text and iterates over it:
    - [Text lines]: [for line in f] yields [lines] and stops;
    - [Unreadable lines e]: it yields [lines] and then the reader raises
      [e] (UnicodeDecodeError on bytes that do not decode, an OSError
      when the device fails); the reader decodes block by block, so
      [lines] may stop short of the last line that would decode;
    - [Unopenable e]: [open] itself raises [e] (PermissionError,
      IsADirectoryError, ...).
    A path that is not in the map does not exist. *)
Inductive file : Type :=
| Text (lines : list string)
| Unreadable (lines : list string) (e : exn)
| Unopenable (e : exn).

Definition files : Type := gmap string file.

(** An open file, by what iterating over it will do. *)
Record reader : Type := Reader {
  yields : list string;
  ends_with : option failure
}.

(** [open(name)], for reading. *)
Definition open (fs : files) (name : string) : result reader :=
  match fs !! name with
  | Some (Text lines) => Ok (Reader lines None)
  | Some (Unreadable lines e) =>
      Ok (Reader lines (Some (Failure e (InLibraryCall "TextIOWrapper.__next__"))))
  | Some (Unopenable e) => Raise (Failure e (InLibraryCall "open"))
  | None => Raise (Failure FileNotFoundError (InLibraryCall "open"))
  end.

(** How the iteration over an open file ends, once the loop body has run
    on every line it yielded. *)
Definition end_of_file (f : reader) : result unit :=
  match ends_with f with
  | None => Ok ()
  | Some e => Raise e
  end.

(** The body of the loading loop:
    [values = line.split(); word = values[0];
     coefs = asarray(values[1:], dtype='float32');
     embeddings_index[word] = coefs]. *)
Definition load_line (embeddings_index : gmap string (list F)) (line : string)
  : result (gmap string (list F)) :=
  let values := split line in
  word <- getitem "word = values[0]" values 0 ;;
  coefs <- asarray parse_float (drop 1 values) ;;
  Ok (<[word := coefs]> embeddings_index).

(** [embeddings_index = dict(); for line in f: ...], on the lines that
    [f] yields. *)
Definition load_embeddings (f : list string) : result (gmap string (list F)) :=
  for_each load_line f ∅.

(** ['Loaded %s word vectors.' % len(embeddings_index)]. *)
Definition loaded_message (embeddings_index : gmap string (list F)) : string :=
  "Loaded " +:+ pretty (size embeddings_index) +:+ " word vectors.".

(** The loading cell: open the file, run the loop, print the count. *)
Definition load_cell (fs : files) : result (gmap string (list F) * string) :=
  f <- open fs "glove.6B.100d.txt" ;;
  embeddings_index <- load_embeddings (yields f) ;;
  _ <- end_of_file f ;;
  Ok (embeddings_index, loaded_message embeddings_index).

(** The body of the weight-matrix loop:
    [embedding_vector = embeddings_index.get(word);
     if embedding_vector is not None:
         embedding_matrix[i] = embedding_vector]. *)
Definition fill_row (embeddings_index : gmap string (list F))
    (embedding_matrix : list (list F)) (item : string * Z)
  : result (list (list F)) :=
  let '(word, i) := item in
  match embeddings_index !! word with
  | Some embedding_vector => setitem_row embedding_matrix i embedding_vector
  | None => Ok embedding_matrix
  end.

(** [vocab_size = len(t.word_index) + 1]; [word_index] is the sequence
    [t.word_index.items()]. *)
Definition vocab_size (word_index : list (string * Z)) : nat :=
  length word_index + 1.

(** [embedding_matrix = zeros((vocab_size, 100));
     for word, i in t.word_index.items(): ...]. *)
Definition build_embedding_matrix (word_index : list (string * Z))
    (embeddings_index : gmap string (list F)) : result (list (list F)) :=
  for_each (fill_row embeddings_index) word_index
           (zeros zero (vocab_size word_index) 100).

(** The two cells in sequence, as in the complete listing. *)
Definition glove_cells (fs : files) (word_index : list (string * Z))
  : result (string * list (list F)) :=
  loaded <- load_cell fs ;;
  embedding_matrix <- build_embedding_matrix word_index loaded.1 ;;
  Ok (loaded.2, embedding_matrix).

End Listing.

End Glove.

Import Glove.

(** ** The same two cells over any behaviour of what they call

    Every operation of the two cells is a call into Python's run time
    or into NumPy, but for the subscript [values[0]] on a plain list.
    Here the called operations are a record of functions that may fail
    in any way; the cells are the same statements in the same order.
    (Exhaustion of memory and interrupts, which can strike between any two
    instructions, are outside the model.) *)

Module Libraries.

Section Cells.

Context {F : Type}.

Record library : Type := Library {
  lib_open : string -> result reader;
  lib_asarray : list string -> result (list F);
  lib_close : result unit;
  lib_print : string -> result unit;
  lib_zeros : nat -> nat -> result (list (list F));
  lib_setitem : list (list F) -> Z -> list F -> result (list (list F))
}.

Context (lib : library).

Definition load_line (embeddings_index : gmap string (list F)) (line : string)
  : result (gmap string (list F)) :=
  let values := split line in
  word <- getitem "word = values[0]" values 0 ;;
  coefs <- lib_asarray lib (drop 1 values) ;;
  Ok (<[word := coefs]> embeddings_index).

(** [embeddings_index = dict(); f = open('glove.6B.100d.txt');
     for line in f: ...; f.close(); print('Loaded %s word vectors.' % ...)]. *)
Definition load_cell : result (gmap string (list F) * string) :=
  f <- lib_open lib "glove.6B.100d.txt" ;;
  embeddings_index <- for_each load_line (yields f) ∅ ;;
  _ <- end_of_file f ;;
  _ <- lib_close lib ;;
  _ <- lib_print lib (loaded_message embeddings_index) ;;
  Ok (embeddings_index, loaded_message embeddings_index).

Definition fill_row (embeddings_index : gmap string (list F))
    (embedding_matrix : list (list F)) (item : string * Z)
  : result (list (list F)) :=
  let '(word, i) := item in
  match embeddings_index !! word with
  | Some embedding_vector => lib_setitem lib embedding_matrix i embedding_vector
  | None => Ok embedding_matrix
  end.

Definition build_embedding_matrix (word_index : list (string * Z))
    (embeddings_index : gmap string (list F)) : result (list (list F)) :=
  embedding_matrix <- lib_zeros lib (vocab_size word_index) 100 ;;
  for_each (fill_row embeddings_index) word_index embedding_matrix.

Definition glove_cells (word_index : list (string * Z))
  : result (string * list (list F)) :=
  loaded <- load_cell ;;
  embedding_matrix <- build_embedding_matrix word_index loaded.1 ;;
  Ok (loaded.2, embedding_matrix).

(** The exception [e] came out of one of the calls. *)
Definition raised_by_a_call (e : failure) : Prop :=
  lib_open lib "glove.6B.100d.txt" = Raise e
  ∨ (∃ lines, lib_open lib "glove.6B.100d.txt" = Ok (Reader lines (Some e)))
  ∨ (∃ values, lib_asarray lib values = Raise e)
  ∨ lib_close lib = Raise e
  ∨ (∃ text, lib_print lib text = Raise e)
  ∨ (∃ rows cols, lib_zeros lib rows cols = Raise e)
  ∨ (∃ M i v, lib_setitem lib M i v = Raise e).

End Cells.

Arguments library : clear implicits.

(** Python 3 and NumPy as Part 1 models them, over the file system [fs];
    closing a file that was read and printing a line succeed. *)
Definition python_numpy {F : Type} (parse_float : string -> option F) (zero : F)
    (fs : files) : library F :=
  {| lib_open := open fs;
     lib_asarray := asarray parse_float;
     lib_close := Ok ();
     lib_print := fun _ => Ok ();
     lib_zeros := fun rows cols => Ok (zeros zero rows cols);
     lib_setitem := setitem_row |}.

End Libraries.

(** ** The code cells of the documents, as syntax *)

Module Script.

(** Expressions of the Python cells and of the R chunks.  [Attr e a] is
    [e.a] in Python and [e$a] in R; [Formula] and [Missing] are R's model
    formula and the empty index of [iris[,1:4]]. *)
#[warnings="-register-all"]
Inductive expr : Type :=
| Name (x : string)
| Str (s : string)
| Int (n : Z)
| Num (literal : string)
| NoneE
| BoolE (b : bool)
| Formula (src : string)
| Missing
| ListE (items : list expr)
| TupleE (items : list expr)
| Attr (e : expr) (a : string)
| Call (f : expr) (args : list expr) (kwargs : list (string * expr))
| Subscript (e : expr) (ix : list expr)
| Slice (lo hi : option expr)
| BinOp (op : string) (l r : expr)
| ListComp (elt : expr) (var : string) (iter : expr).

(** Statements.  The constructors after [If] occur in no document; they
    are what the properties below rule out. *)
#[warnings="-register-all"]
Inductive stmt : Type :=
| ImportFrom (module name : string)
| Assign (targets : list expr) (value : expr)
| ExprStmt (e : expr)
| For (vars : list string) (iter : expr) (body : list stmt)
| If (cond : expr) (body orelse : list stmt)
| While (cond : expr) (body : list stmt)
| Try (body : list stmt) (handlers : list (string * list stmt))
| RaiseStmt (e : expr)
| Def (name : string) (params : list string) (body : list stmt).

(** A code cell either holds statements or text that is no program. *)
Inductive cell : Type :=
| Code (body : list stmt)
| NotCode (src : string).

Inductive lang : Type := Python | R.

Record document : Type := Document {
  title : string;
  language : lang;
  cells : list cell
}.

Global Instance lang_eq_dec : EqDecision lang.
Proof. solve_decision. Defined.

(** Shorthands for the frequent shapes. *)
Definition call (f : string) (args : list expr) (kwargs : list (string * expr)) : expr :=
  Call (Name f) args kwargs.
Definition method (obj m : string) (args : list expr) (kwargs : list (string * expr)) : expr :=
  Call (Attr (Name obj) m) args kwargs.
Definition assign (x : string) (value : expr) : stmt := Assign [Name x] value.
Definition print (e : expr) : stmt := ExprStmt (call "print" [e] []).

End Script.

Import Script.

(** ** The four documents *)

Module Repository.

(** *** Keras word-embedding notebook *)

Definition embedding_layer_cell : cell := Code [
  assign "e" (call "Embedding" [Int 200; Int 32] [("input_length", Int 50)])
].

Definition define_documents : list stmt := [
  assign "docs" (ListE [Str "Well done!"; Str "Good work"; Str "Great effort";
                        Str "nice work"; Str "Excellent!"; Str "Weak";
                        Str "Poor effort!"; Str "not good"; Str "poor work";
                        Str "Could have done better."]);
  assign "labels" (call "array" [ListE [Int 1; Int 1; Int 1; Int 1; Int 1;
                                        Int 0; Int 0; Int 0; Int 0; Int 0]] [])
].

Definition one_hot_encode : list stmt := [
  assign "vocab_size" (Int 50);
  assign "encoded_docs"
    (ListComp (call "one_hot" [Name "d"; Name "vocab_size"] []) "d" (Name "docs"));
  print (Name "encoded_docs")
].

Definition pad_documents : list stmt := [
  assign "max_length" (Int 4);
  assign "padded_docs"
    (call "pad_sequences" [Name "encoded_docs"]
          [("maxlen", Name "max_length"); ("padding", Str "post")]);
  print (Name "padded_docs")
].

Definition compile_and_summarize : list stmt := [
  ExprStmt (method "model" "compile" []
              [("optimizer", Str "adam"); ("loss", Str "binary_crossentropy");
               ("metrics", ListE [Str "acc"])]);
  print (method "model" "summary" [] [])
].

Definition define_learned_model : list stmt := [
  assign "model" (call "Sequential" [] []);
  ExprStmt (method "model" "add"
              [call "Embedding" [Name "vocab_size"; Int 8]
                    [("input_length", Name "max_length")]] []);
  ExprStmt (method "model" "add" [call "Flatten" [] []] []);
  ExprStmt (method "model" "add"
              [call "Dense" [Int 1] [("activation", Str "sigmoid")]] [])
] ++ compile_and_summarize.

Definition fit_and_evaluate : list stmt := [
  ExprStmt (method "model" "fit" [Name "padded_docs"; Name "labels"]
              [("epochs", Int 50); ("verbose", Int 0)]);
  Assign [TupleE [Name "loss"; Name "accuracy"]]
         (method "model" "evaluate" [Name "padded_docs"; Name "labels"]
                 [("verbose", Int 0)]);
  print (BinOp "%" (Str "Accuracy: %f") (BinOp "*" (Name "accuracy") (Int 100)))
].

Definition learned_embedding_imports : list stmt := [
  ImportFrom "numpy" "array";
  ImportFrom "keras.preprocessing.text" "one_hot";
  ImportFrom "keras.preprocessing.sequence" "pad_sequences";
  ImportFrom "keras.models" "Sequential";
  ImportFrom "keras.layers" "Dense";
  ImportFrom "keras.layers" "Flatten";
  ImportFrom "keras.layers.embeddings" "Embedding"
].

(** The complete listing of section 3 repeats the five cells before it. *)
Definition learned_embedding_listing : cell := Code
  (learned_embedding_imports ++ define_documents ++ one_hot_encode
   ++ pad_documents ++ define_learned_model ++ fit_and_evaluate).

(** The first line of [glove.6B.100d.txt], shown in a code cell. *)
Definition glove_sample_line : string :=
  "the -0.038194 -0.24487 0.72812 -0.39961 0.083172 0.043953 " +:+
  "-0.39141 0.3344 -0.57545 0.087459 0.28787 -0.06731 0.30906 " +:+
  "-0.26384 -0.13231 -0.20757 0.33395 -0.33848 -0.31743 -0.48336 " +:+
  "0.1464 -0.37304 0.34577 0.052041 0.44946 -0.46971 0.02628 " +:+
  "-0.54155 -0.15518 -0.14107 -0.039722 0.28277 0.14393 0.23464 " +:+
  "-0.31021 0.086173 0.20397 0.52624 0.17164 -0.082378 -0.71787 " +:+
  "-0.41531 0.20335 -0.12763 0.41367 0.55187 0.57908 -0.33477 " +:+
  "-0.36559 -0.54857 -0.062892 0.26584 0.30205 0.99775 -0.80481 " +:+
  "-3.0243 0.01254 -0.36942 2.2167 0.72201 -0.24978 0.92136 0.034514 " +:+
  "0.46745 1.1079 -0.19358 -0.074575 0.23353 -0.052062 -0.22044 " +:+
  "0.057162 -0.15806 -0.30798 -0.41625 0.37972 0.15006 -0.53212 " +:+
  "-0.2055 -1.2526 0.071624 0.70565 0.49744 -0.42063 0.26148 -1.538 " +:+
  "-0.30223 -0.073438 -0.28312 0.37104 -0.25217 0.016215 -0.017099 " +:+
  "-0.38984 0.87424 -0.72569 -0.51058 -0.52028 -0.1459 0.8278 " +:+
  "0.27062".

Definition tokenize_documents : list stmt := define_documents ++ [
  assign "t" (call "Tokenizer" [] []);
  ExprStmt (method "t" "fit_on_texts" [Name "docs"] []);
  assign "vocab_size"
    (BinOp "+" (call "len" [Attr (Name "t") "word_index"] []) (Int 1));
  assign "encoded_docs" (method "t" "texts_to_sequences" [Name "docs"] [])
] ++ [print (Name "encoded_docs")] ++ pad_documents.

Definition load_glove : list stmt := [
  assign "embeddings_index" (call "dict" [] []);
  assign "f" (call "open" [Str "glove.6B.100d.txt"] []);
  For ["line"] (Name "f") [
    assign "values" (method "line" "split" [] []);
    assign "word" (Subscript (Name "values") [Int 0]);
    assign "coefs"
      (call "asarray" [Subscript (Name "values") [Slice (Some (Int 1)) None]]
            [("dtype", Str "float32")]);
    Assign [Subscript (Name "embeddings_index") [Name "word"]] (Name "coefs")
  ];
  ExprStmt (method "f" "close" [] []);
  print (BinOp "%" (Str "Loaded %s word vectors.")
               (call "len" [Name "embeddings_index"] []))
].

Definition weight_matrix : list stmt := [
  assign "embedding_matrix"
    (call "zeros" [TupleE [Name "vocab_size"; Int 100]] []);
  For ["word"; "i"] (Call (Attr (Attr (Name "t") "word_index") "items") [] []) [
    assign "embedding_vector" (method "embeddings_index" "get" [Name "word"] []);
    If (BinOp "is not" (Name "embedding_vector") NoneE)
       [Assign [Subscript (Name "embedding_matrix") [Name "i"]]
               (Name "embedding_vector")]
       []
  ]
].

Definition pretrained_layer : list stmt := [
  assign "e"
    (call "Embedding" [Name "vocab_size"; Int 100]
          [("weights", ListE [Name "embedding_matrix"]);
           ("input_length", Int 4); ("trainable", BoolE false)])
].

Definition define_pretrained_model : list stmt :=
  [assign "model" (call "Sequential" [] [])] ++ pretrained_layer ++ [
  ExprStmt (method "model" "add" [Name "e"] []);
  ExprStmt (method "model" "add" [call "Flatten" [] []] []);
  ExprStmt (method "model" "add"
              [call "Dense" [Int 1] [("activation", Str "sigmoid")]] [])
] ++ compile_and_summarize.

Definition glove_imports : list stmt := [
  ImportFrom "numpy" "array";
  ImportFrom "numpy" "asarray";
  ImportFrom "numpy" "zeros";
  ImportFrom "keras.preprocessing.text" "Tokenizer";
  ImportFrom "keras.preprocessing.sequence" "pad_sequences";
  ImportFrom "keras.models" "Sequential";
  ImportFrom "keras.layers" "Dense";
  ImportFrom "keras.layers" "Flatten";
  ImportFrom "keras.layers" "Embedding"
].

(** The complete listing of section 4 repeats the four cells before it. *)
Definition glove_listing : cell := Code
  (glove_imports ++ tokenize_documents ++ load_glove ++ weight_matrix
   ++ define_pretrained_model ++ fit_and_evaluate).

Definition word_embedding_notebook : document := {|
  title := "How to Use Word Embedding Layers for Deep Learning with Keras";
  language := Python;
  cells := [
    embedding_layer_cell;
    Code define_documents;
    Code one_hot_encode;
    Code pad_documents;
    Code define_learned_model;
    Code fit_and_evaluate;
    learned_embedding_listing;
    NotCode glove_sample_line;
    Code tokenize_documents;
    Code load_glove;
    Code weight_matrix;
    Code pretrained_layer;
    glove_listing
  ]
|}.

(** *** scikit-learn pipelines notebook *)

Definition pima_url : string :=
  "https://raw.githubusercontent.com/jbrownlee/Datasets/master/pima-indians-diabetes.data.csv".

Definition load_pima : list stmt := [
  assign "url" (Str pima_url);
  assign "names" (ListE [Str "preg"; Str "plas"; Str "pres"; Str "skin";
                         Str "test"; Str "mass"; Str "pedi"; Str "age";
                         Str "class"]);
  assign "dataframe" (call "read_csv" [Name "url"] [("names", Name "names")]);
  assign "array" (Attr (Name "dataframe") "values");
  assign "X" (Subscript (Name "array")
                [Slice None None; Slice (Some (Int 0)) (Some (Int 8))]);
  assign "Y" (Subscript (Name "array") [Slice None None; Int 8])
].

Definition evaluate_pipeline : list stmt := [
  assign "model" (call "Pipeline" [Name "estimators"] []);
  assign "seed" (Int 7);
  assign "kfold" (call "KFold" [] [("n_splits", Int 10); ("random_state", Name "seed")]);
  assign "results"
    (call "cross_val_score" [Name "model"; Name "X"; Name "Y"] [("cv", Name "kfold")]);
  print (method "results" "mean" [] [])
].

Definition append_step (to name : string) (step : expr) : stmt :=
  ExprStmt (method to "append" [TupleE [Str name; step]] []).

Definition pipeline_1 : cell := Code ([
  ImportFrom "pandas" "read_csv";
  ImportFrom "sklearn.model_selection" "KFold";
  ImportFrom "sklearn.model_selection" "cross_val_score";
  ImportFrom "sklearn.preprocessing" "StandardScaler";
  ImportFrom "sklearn.pipeline" "Pipeline";
  ImportFrom "sklearn.discriminant_analysis" "LinearDiscriminantAnalysis"
] ++ load_pima ++ [
  assign "estimators" (ListE []);
  append_step "estimators" "standardize" (call "StandardScaler" [] []);
  append_step "estimators" "lda" (call "LinearDiscriminantAnalysis" [] [])
] ++ evaluate_pipeline).

Definition pipeline_2 : cell := Code ([
  ImportFrom "pandas" "read_csv";
  ImportFrom "sklearn.model_selection" "KFold";
  ImportFrom "sklearn.model_selection" "cross_val_score";
  ImportFrom "sklearn.pipeline" "Pipeline";
  ImportFrom "sklearn.pipeline" "FeatureUnion";
  ImportFrom "sklearn.linear_model" "LogisticRegression";
  ImportFrom "sklearn.decomposition" "PCA";
  ImportFrom "sklearn.feature_selection" "SelectKBest"
] ++ load_pima ++ [
  assign "features" (ListE []);
  append_step "features" "pca" (call "PCA" [] [("n_components", Int 3)]);
  append_step "features" "select_best" (call "SelectKBest" [] [("k", Int 6)]);
  assign "feature_union" (call "FeatureUnion" [Name "features"] []);
  assign "estimators" (ListE []);
  append_step "estimators" "feature_union" (Name "feature_union");
  append_step "estimators" "logistic" (call "LogisticRegression" [] [])
] ++ evaluate_pipeline).

Definition pipelines_notebook : document := {|
  title := "Automate Machine Learning Workflows with Pipelines in Python and scikit-learn";
  language := Python;
  cells := [pipeline_1; pipeline_2]
|}.

(** *** R-markdown classification recipes *)

Definition iris_features : expr :=
  Subscript (Name "iris") [Missing; BinOp ":" (Int 1) (Int 4)].

(** Every chunk has the same six statements; the package, the fitting
    call and the prediction expression vary. *)
Definition recipe (package : string) (fit predictions : expr) : cell := Code [
  ExprStmt (call "library" [Name package] []);
  ExprStmt (call "data" [Name "iris"] []);
  assign "fit" fit;
  ExprStmt (call "summary" [Name "fit"] []);
  assign "predictions" predictions;
  ExprStmt (call "table" [Name "predictions"; Attr (Name "iris") "Species"] [])
].

Definition fit_with (f : string) (extra : list (string * expr)) : expr :=
  call f [Formula "Species~."] (("data", Name "iris") :: extra).

Definition predict_with (extra : list (string * expr)) : expr :=
  call "predict" [Name "fit"; iris_features] extra.

Definition nonlinear_classification_in_R : document := {|
  title := "nonlinear_classification_in_R";
  language := R;
  cells := [
    recipe "mda" (fit_with "mda" []) (predict_with []);
    recipe "MASS" (fit_with "qda" []) (Attr (predict_with []) "class");
    recipe "klaR"
      (fit_with "rda" [("gamma", Num "0.05"); ("lambda", Num "0.01")])
      (Attr (predict_with []) "class");
    recipe "nnet"
      (fit_with "nnet" [("size", Int 4); ("decay", Num "0.0001"); ("maxit", Int 500)])
      (predict_with [("type", Str "class")]);
    recipe "mda" (fit_with "fda" []) (predict_with []);
    recipe "kernlab" (fit_with "ksvm" []) (predict_with [("type", Str "response")]);
    recipe "caret" (fit_with "knn3" [("k", Int 5)]) (predict_with [("type", Str "class")]);
    recipe "e1071" (fit_with "naiveBayes" []) (predict_with [])
  ]
|}.

(** *** Truncated Backpropagation Through Time notebook *)

(** Its single code cell holds a formula of the text, not a statement:
    the left-hand side is a call and [... X(t-n)] is no expression. *)
Definition tbptt_notation : cell :=
  NotCode "yhat(t) = f(X(t), X(t-1), X(t-2), ... X(t-n))".

Definition tbptt_notebook : document := {|
  title := "How to Prepare Sequence Prediction for Truncated Backpropagation Through Time in Keras";
  language := Python;
  cells := [tbptt_notation]
|}.

Definition repository : list document :=
  [word_embedding_notebook; pipelines_notebook;
   nonlinear_classification_in_R; tbptt_notebook].

End Repository.

Import Repository.

(** ** What the cells contain *)

Module Analysis.

(** All the expressions inside an expression, itself first, the others in
    evaluation order. *)
Fixpoint subexprs (e : expr) : list expr :=
  e :: match e with
       | ListE items | TupleE items => flat_map subexprs items
       | Attr e' _ => subexprs e'
       | Call f args kwargs =>
           subexprs f ++ flat_map subexprs args
           ++ flat_map (fun kw => subexprs kw.2) kwargs
       | Subscript e' ix => subexprs e' ++ flat_map subexprs ix
       | Slice lo hi => from_option subexprs [] lo ++ from_option subexprs [] hi
       | BinOp _ l r => subexprs l ++ subexprs r
       | ListComp elt _ iter => subexprs iter ++ subexprs elt
       | _ => []
       end.

(** All the statements inside a statement, itself first. *)
Fixpoint substmts (s : stmt) : list stmt :=
  s :: match s with
       | For _ _ body | While _ body | Def _ _ body => flat_map substmts body
       | If _ body orelse => flat_map substmts body ++ flat_map substmts orelse
       | Try body handlers =>
           flat_map substmts body
           ++ flat_map (fun h => flat_map substmts h.2) handlers
       | _ => []
       end.

(** The expressions a statement evaluates itself (not those of nested
    statements). *)
Definition own_exprs (s : stmt) : list expr :=
  match s with
  | ImportFrom _ _ => []
  | Assign targets value => value :: targets
  | ExprStmt e | RaiseStmt e => [e]
  | For _ iter _ => [iter]
  | If cond _ _ | While cond _ => [cond]
  | Try _ _ | Def _ _ _ => []
  end.

Definition cell_stmts (c : cell) : list stmt :=
  match c with
  | Code body => flat_map substmts body
  | NotCode _ => []
  end.

Definition cell_exprs (c : cell) : list expr :=
  flat_map subexprs (flat_map own_exprs (cell_stmts c)).

Definition doc_stmts (d : document) : list stmt := flat_map cell_stmts (cells d).
Definition doc_exprs (d : document) : list expr := flat_map cell_exprs (cells d).

(** *** Calls *)

(** The name a call goes to: [f(...)] or the method of [obj.m(...)]. *)
Definition callee (f : expr) : string :=
  match f with
  | Name x => x
  | Attr _ m => m
  | _ => ""
  end.

Record call_site : Type := CallSite {
  cs_callee : string;
  cs_args : list expr;
  cs_kwargs : list (string * expr)
}.

Definition as_call (e : expr) : option call_site :=
  match e with
  | Call f args kwargs => Some (CallSite (callee f) args kwargs)
  | _ => None
  end.

Definition cell_calls (c : cell) : list call_site := omap as_call (cell_exprs c).
Definition doc_calls (d : document) : list call_site := flat_map cell_calls (cells d).

(** *** Objects changed in place *)

(** The targets [obj[key]] of the assignments of a statement: the stores
    into a dictionary or an array that the cell itself performs. *)
Definition is_subscript (e : expr) : bool :=
  match e with
  | Subscript _ _ => true
  | _ => false
  end.

Definition subscript_store (s : stmt) : list expr :=
  match s with
  | Assign targets _ => filter is_subscript targets
  | _ => []
  end.

Definition subscript_stores (d : document) : list expr :=
  flat_map subscript_store (doc_stmts d).

(** *** Control constructs written in the cells *)

Inductive construct : Type :=
| Loop (vars : list string) (iter : expr)
| Branch (cond : expr)
| Comprehension (var : string) (iter : expr)
| WhileLoop (cond : expr)
| Handler
| RaiseSite
| FunctionDef (name : string).

Definition stmt_construct (s : stmt) : option construct :=
  match s with
  | For vars iter _ => Some (Loop vars iter)
  | If cond _ _ => Some (Branch cond)
  | While cond _ => Some (WhileLoop cond)
  | Try _ _ => Some Handler
  | RaiseStmt _ => Some RaiseSite
  | Def name _ _ => Some (FunctionDef name)
  | ImportFrom _ _ | Assign _ _ | ExprStmt _ => None
  end.

Definition expr_construct (e : expr) : option construct :=
  match e with
  | ListComp _ var iter => Some (Comprehension var iter)
  | _ => None
  end.

(** The constructs of a cell: those of its statements, then those of its
    expressions. *)
Definition constructs (c : cell) : list construct :=
  omap stmt_construct (cell_stmts c) ++ omap expr_construct (cell_exprs c).

(** Constructs that catch or raise an exception. *)
Definition handles_errors (c : construct) : bool :=
  match c with
  | Handler | RaiseSite => true
  | _ => false
  end.

Definition error_handling (d : document) : list construct :=
  filter handles_errors (flat_map constructs (cells d)).

(** A cell is straight-line code when it has none: it is then a sequence
    of imports, assignments and calls. *)
Definition straight_line (c : cell) : bool := bool_decide (constructs c = []).

Definition doc_straight_line (d : document) : bool := forallb straight_line (cells d).

(** *** What the statements do to the outside world *)

(** A statement acts on the world outside the process in two ways.  It
    calls one of the few functions whose arguments say what is read or
    written: Python's built-in [open] and [print], pandas' [read_csv],
    R's printing of a top-level value.  Or it hands control to a
    library, by an import or by any other call; what the library then
    does on its own account (warnings on standard error, text on standard
    output, files it keeps) is not written in the repository, and no
    effect is claimed or excluded for it here. *)
Inductive effect : Type :=
| Reads (source : string)
| ReadsUnknown (source : expr)
| Writes (target : expr)
| Prints (what : expr)
| PrintsTo (stream : expr) (what : expr)
| Imports (module : string)
| Calls (callee : string).

Fixpoint assoc {A : Type} (k : string) (kvs : list (string * A)) : option A :=
  match kvs with
  | [] => None
  | (k', v) :: kvs' => if String.eqb k k' then Some v else assoc k kvs'
  end.

(** String literals assigned to a name in a cell ([url = "..."]). *)
Definition string_constant (s : stmt) : option (string * string) :=
  match s with
  | Assign [Name x] (Str v) => Some (x, v)
  | _ => None
  end.

Definition resolve (consts : list (string * string)) (e : expr) : option string :=
  match e with
  | Str s => Some s
  | Name x => assoc x consts
  | _ => None
  end.

Definition reads_of (consts : list (string * string)) (e : expr) : effect :=
  match resolve consts e with
  | Some s => Reads s
  | None => ReadsUnknown e
  end.

(** The mode of [open]: second positional argument or [mode=]; reading
    when absent. *)
Definition open_mode (cs : call_site) : option expr :=
  match cs_args cs with
  | _ :: m :: _ => Some m
  | _ => assoc "mode" (cs_kwargs cs)
  end.

Definition mode_writes (m : string) : bool :=
  existsb (fun c => bool_decide (c ∈ list_ascii_of_string "wax+"))
          (list_ascii_of_string m).

(** What [print] is given to print. *)
Definition printed (args : list expr) : expr :=
  match args with
  | [a] => a
  | _ => TupleE args
  end.

(** The effect of one call site.  [print] writes to standard output
    unless [file=] names another stream; [open] reads or writes by its
    mode; [read_csv] reads the file or URL of its first argument, inside
    pandas; R's [library(p)] attaches the package [p]. *)
Definition call_effects (l : lang) (consts : list (string * string)) (e : expr)
  : list effect :=
  match e with
  | Call (Name f) args kwargs =>
      if String.eqb f "print" then
        match assoc "file" kwargs with
        | None => [Prints (printed args)]
        | Some stream => [PrintsTo stream (printed args)]
        end
      else if String.eqb f "open" then
        match args with
        | target :: _ =>
            match open_mode (CallSite f args kwargs) with
            | None => [reads_of consts target]
            | Some (Str m) =>
                if mode_writes m then [Writes target] else [reads_of consts target]
            | Some _ => [Writes target]
            end
        | [] => [ReadsUnknown e]
        end
      else if String.eqb f "read_csv" then
        match args with
        | src :: _ => [reads_of consts src; Calls f]
        | [] => [ReadsUnknown e; Calls f]
        end
      else
        match l, f, args with
        | R, "library", [Name p] => [Imports p]
        | _, _, _ => [Calls f]
        end
  | Call f _ _ => [Calls (callee f)]
  | _ => []
  end.

(** In R a top-level expression is printed unless its value is invisible,
    as those of [library] and [data] are. *)
Definition auto_prints (l : lang) (s : stmt) : list effect :=
  match l, s with
  | R, ExprStmt (Call f _ _ as e) =>
      if bool_decide (callee f ∈ ["library"; "data"]) then [] else [Prints e]
  | R, ExprStmt e => [Prints e]
  | _, _ => []
  end.

(** Effects of a statement itself: the import it is, or the calls in its
    expressions, one effect for each call site, a call after the calls in
    its arguments.  (A site inside a loop stands for every time it
    runs.) *)
Definition stmt_effects (l : lang) (consts : list (string * string)) (s : stmt)
  : list effect :=
  match s with
  | ImportFrom m _ => [Imports m]
  | _ => flat_map (call_effects l consts) (reverse (flat_map subexprs (own_exprs s)))
  end.

Definition cell_effects (l : lang) (c : cell) : list effect :=
  match c with
  | Code body =>
      let consts := omap string_constant body in
      flat_map (fun s => (flat_map (stmt_effects l consts) (substmts s)
                          ++ auto_prints l s)%list) body
  | NotCode _ => []
  end.

Definition effects (d : document) : list effect :=
  flat_map (cell_effects (language d)) (cells d).

Definition read_source (e : effect) : option string :=
  match e with Reads s => Some s | _ => None end.

Definition printed_value (e : effect) : option expr :=
  match e with Prints what => Some what | _ => None end.

Definition called (e : effect) : option string :=
  match e with Calls f => Some f | _ => None end.

(** Output that does not go to standard output. *)
Definition writes_elsewhere (e : effect) : bool :=
  match e with Writes _ | PrintsTo _ _ => true | _ => false end.

Definition reads (d : document) : list string := omap read_source (effects d).
Definition prints (d : document) : list expr := omap printed_value (effects d).
Definition writes (d : document) : list effect := filter writes_elsewhere (effects d).
Definition calls (d : document) : list string := remove_dups (omap called (effects d)).

(** *** Imports *)

(** [keras.layers.embeddings] belongs to the distribution [keras]. *)
Fixpoint module_root (m : string) : string :=
  match m with
  | EmptyString => EmptyString
  | String c m' => if Ascii.eqb c "."%char then EmptyString else String c (module_root m')
  end.

(** The modules a statement brings in: [from m import x] in Python,
    [library(p)] in R. *)
Definition imported (s : stmt) : option string :=
  match s with
  | ImportFrom m _ => Some (module_root m)
  | ExprStmt (Call (Name "library") [Name p] _) => Some p
  | _ => None
  end.

Definition imports (d : document) : list string := omap imported (doc_stmts d).

(** The third-party distributions: PyPI's and CRAN's. *)
Definition libraries : list string :=
  ["numpy"; "pandas"; "sklearn"; "keras";
   "mda"; "MASS"; "klaR"; "nnet"; "kernlab"; "caret"; "e1071"].

(** The effects of a tutorial's own statements: reading one of its
    data files, printing to standard output, importing a third-party
    library, calling a function. *)
Definition reads_prints_or_delegates (sources : list string) (e : effect) : bool :=
  match e with
  | Reads s => bool_decide (s ∈ sources)
  | Prints _ => true
  | Imports m => bool_decide (module_root m ∈ libraries)
  | Calls _ => true
  | ReadsUnknown _ | Writes _ | PrintsTo _ _ => false
  end.

(** *** Tutorial cells *)

Definition dataset_loaders : list string := ["read_csv"; "open"; "data"].

Definition model_apis : list string :=
  ["cross_val_score"; "fit"; "evaluate";
   "mda"; "qda"; "rda"; "nnet"; "fda"; "ksvm"; "knn3"; "naiveBayes"].

Definition calls_any (names : list string) (c : cell) : bool :=
  existsb (fun cs => bool_decide (cs_callee cs ∈ names)) (cell_calls c).

Definition is_code (c : cell) : bool :=
  match c with
  | Code (_ :: _) => true
  | Code [] | NotCode _ => false
  end.

(** *** Requests for parallel or bounded execution *)

Definition concurrency_keywords : list string :=
  ["n_jobs"; "workers"; "use_multiprocessing"; "nb_worker"; "pre_dispatch";
   "timeout"].

Definition concurrency_modules : list string :=
  ["threading"; "multiprocessing"; "concurrent"; "asyncio"; "joblib";
   "signal"; "parallel"; "doParallel"; "foreach"].

Definition requests_concurrency (cs : call_site) : bool :=
  existsb (fun kw => bool_decide (kw.1 ∈ concurrency_keywords)) (cs_kwargs cs).

Definition concurrency_requests (d : document) : list call_site :=
  filter requests_concurrency (doc_calls d).

Definition concurrency_imports (d : document) : list string :=
  filter (fun m => m ∈ concurrency_modules) (imports d).

Definition calls_to (name : string) (d : document) : list call_site :=
  filter (fun cs => cs_callee cs = name) (doc_calls d).

End Analysis.

Import Analysis.

(** ** Properties of the GloVe loops *)

Module GloveSpec.

Section Spec.

Context {F : Type} (parse_float : string -> option F) (zero : F).

(** *** The loading loop *)

(** The first token of a line and the numbers after it. *)
Definition first_token (line : string) : option string := head (split line).

Definition coefficients (line : string) : option (list F) :=
  mapM parse_float (drop 1 (split line)).

(** A line the loop body accepts: one token at least, every further token
    a number. *)
Definition well_formed (line : string) : bool :=
  bool_decide (is_Some (first_token line) ∧ is_Some (coefficients line)).

(** The last line of the file whose first token is [w]. *)
Definition last_line_of (w : string) (f : list string) : option string :=
  last (filter (fun line => first_token line = Some w) f).

Definition distinct_first_tokens (f : list string) : list string :=
  remove_dups (omap first_token f).

(** *** The weight-matrix loop *)

Definition zero_row : list F := replicate 100 zero.

(** The row the matrix is meant to hold for the word [w]. *)
Definition row_for (embeddings_index : gmap string (list F)) (w : string) : list F :=
  default zero_row (embeddings_index !! w).

(** The loop invariant: after the items [seen], the matrix has its shape,
    the indices seen are rows of it, these rows hold the vectors of their
    words, and every other row is still zero. *)
Record invariant (embeddings_index : gmap string (list F)) (rows : nat)
    (seen : list (string * Z)) (M : list (list F)) : Prop := Invariant {
  inv_rows : length M = rows;
  inv_cols : Forall (fun row => length row = 100) M;
  inv_range : ∀ w i, (w, i) ∈ seen → (0 ≤ i < Z.of_nat rows)%Z;
  inv_seen : ∀ w i, (w, i) ∈ seen → M !! Z.to_nat i = Some (row_for embeddings_index w);
  inv_rest : ∀ k, k < rows → (∀ w i, (w, i) ∈ seen → Z.to_nat i ≠ k) →
             M !! k = Some zero_row
}.

(** The weights handed to the Embedding layer agree with the tokenizer:
    looking up the index of a word gives that word's vector. *)
Definition aligned (embeddings_index : gmap string (list F))
    (word_index : list (string * Z)) (M : list (list F)) : Prop :=
  invariant embeddings_index (vocab_size word_index) word_index M.

(** The indices of the tokenizer: distinct, from 1 to the number of words. *)
Definition tokenizer_indices (word_index : list (string * Z)) : Prop :=
  NoDup word_index.*2 ∧
  Forall (fun item => (1 ≤ item.2 ≤ Z.of_nat (length word_index))%Z) word_index.

(** Every vector of the dictionary has the 100 columns of the matrix. *)
Definition hundred_dimensional (embeddings_index : gmap string (list F)) : Prop :=
  map_Forall (fun _ v => length v = 100) embeddings_index.

Global Instance tokenizer_indices_dec word_index :
  Decision (tokenizer_indices word_index).
Proof. unfold tokenizer_indices. apply _. Defined.

Global Instance hundred_dimensional_dec embeddings_index :
  Decision (hundred_dimensional embeddings_index).
Proof. unfold hundred_dimensional. apply _. Defined.

(** Every row written is a copy of the word's vector. *)
Definition rows_are_vectors (embeddings_index : gmap string (list F))
    (word_index : list (string * Z)) (M : list (list F)) : Prop :=
  ∀ w i v, (w, i) ∈ word_index → embeddings_index !! w = Some v →
           M !! Z.to_nat i = Some v.

(** Every failure comes out of a library function. *)
Definition raised_in_library (e : failure) : Prop :=
  ∃ fn, raised_by e = InLibraryCall fn.

End Spec.

End GloveSpec.

Import GloveSpec.

(** ** Sample inputs *)

Module Samples.

(** Integers stand for the floats: a token is a number when it is a
    string of decimal digits. *)
Definition parse_int (s : string) : option Z :=
  Z.of_uint <$> NilZero.uint_of_string s.

Definition newline : string := String "010" EmptyString.

(** Three lines, the first token of the third repeating the first. *)
Definition repeated_word : list string :=
  ["the 1 2" +:+ newline; "of 3 4" +:+ newline; "the 5 6" +:+ newline].

(** An empty line between two entries. *)
Definition with_empty_line : list string :=
  ["the 1 2" +:+ newline; newline; "of 3 4" +:+ newline].

(** A one-dimensional embedding of the word [a]. *)
Definition one_coefficient : gmap string (list Z) := {["a" := [5%Z]]}.

(** A hundred-dimensional embedding of the word [a]. *)
Definition hundred_ones : gmap string (list Z) := {["a" := replicate 100 1%Z]}.

Definition one_word : list (string * Z) := [("a", 1%Z)].

End Samples.

Import Samples.

(** ** The features and the label of the Pima data *)

Module Pima.

(** [names = ['preg', ..., 'class']], the columns [read_csv] gives the
    data frame. *)
Definition names : list string :=
  ["preg"; "plas"; "pres"; "skin"; "test"; "mass"; "pedi"; "age"; "class"].

Section Split.

Context {V : Type}.

(** A two-dimensional array: the number of its columns and its rows. *)
Record ndarray : Type := Ndarray { ncols : nat; rows : list (list V) }.

Definition rectangular (a : ndarray) : Prop :=
  Forall (fun r => length r = ncols a) (rows a).

(** [a[:, lo:hi]] for [0 <= lo <= hi]: the bounds of a slice are clipped
    to the array, nothing is raised. *)
Definition slice_columns (a : ndarray) (lo hi : nat) : ndarray :=
  {| ncols := min hi (ncols a) - lo;
     rows := (fun r => take (hi - lo) (drop lo r)) <$> rows a |}.

(** [a[:, k]] for [0 <= k]: IndexError when the array has no column [k]. *)
Definition column (a : ndarray) (k : nat) : result (list V) :=
  if decide (k < ncols a) then Ok (omap (fun r => r !! k) (rows a))
  else Raise (Failure IndexError (InLibraryCall "ndarray.__getitem__")).

(** [X = array[:,0:8]; Y = array[:,8]]. *)
Definition features_and_label (array : ndarray) : result (ndarray * list V) :=
  let X := slice_columns array 0 8 in
  Y <- column array 8 ;;
  Ok (X, Y).

End Split.

End Pima.

(** ** Names bound and names used *)

Module Names.

(** The built-in functions the Python cells call. *)
Definition builtins (l : lang) : list string :=
  match l with
  | Python => ["print"; "len"; "dict"; "open"]
  | R => []
  end.

(** Whether a name is read whenever its statement runs, or only on
    some runs: inside the body of a loop, a branch or the element of a
    comprehension, which may run no time at all. *)
Inductive certainty : Type := Surely | Perhaps.

(** The names in scope: those every run has bound when it gets here,
    and those some run may have bound (in a body, or after one that may
    have stopped the cell). *)
Record scope : Type := Scope { bound : list string; maybe : list string }.

Definition bind_names (xs : list string) (sc : scope) : scope :=
  Scope (xs ++ bound sc) (xs ++ maybe sc).

(** Reading [x]: nothing to report when it is bound; a read that fails
    on some runs when only some run bound it; else a read that fails
    whenever it happens. *)
Definition read (sc : scope) (c : certainty) (x : string)
  : list (certainty * string) :=
  if bool_decide (x ∈ bound sc) then []
  else if bool_decide (x ∈ maybe sc) then [(Perhaps, x)]
  else [(c, x)].

(** The reads of names that may be unbound, in evaluation order.  In
    Python the function of a call is a name like any other; in R it is
    found in the attached packages, and [library] and [data] do not
    evaluate their argument. *)
Fixpoint unbound (l : lang) (sc : scope) (c : certainty) (e : expr)
  : list (certainty * string) :=
  match e with
  | Name x => read sc c x
  | ListE items | TupleE items => flat_map (unbound l sc c) items
  | Attr e' _ => unbound l sc c e'
  | Call f args kwargs =>
      match l with
      | Python =>
          unbound l sc c f ++ flat_map (unbound l sc c) args
          ++ flat_map (fun kw => unbound l sc c kw.2) kwargs
      | R =>
          if bool_decide (callee f ∈ ["library"; "data"]) then []
          else flat_map (unbound l sc c) args
               ++ flat_map (fun kw => unbound l sc c kw.2) kwargs
      end
  | Subscript e' ix => unbound l sc c e' ++ flat_map (unbound l sc c) ix
  | Slice lo hi =>
      from_option (unbound l sc c) [] lo ++ from_option (unbound l sc c) [] hi
  | BinOp _ lhs rhs => unbound l sc c lhs ++ unbound l sc c rhs
  | ListComp elt var iter =>
      unbound l sc c iter ++ unbound l (bind_names [var] sc) Perhaps elt
  | Str _ | Int _ | Num _ | NoneE | BoolE _ | Formula _ | Missing => []
  end.

(** The names an assignment target binds, and those it reads (a store
    [obj[key] = v] reads [obj] and [key]). *)
Definition target_names (t : expr) : list string :=
  match t with
  | Name x => [x]
  | TupleE items | ListE items =>
      flat_map (fun t' => match t' with Name x => [x] | _ => [] end) items
  | _ => []
  end.

Definition target_unbound (l : lang) (sc : scope) (c : certainty) (t : expr)
  : list (certainty * string) :=
  match t with
  | Name _ => []
  | TupleE items | ListE items =>
      flat_map (fun t' => match t' with Name _ => [] | _ => unbound l sc c t' end)
               items
  | _ => unbound l sc c t
  end.

(** The names a statement has bound once it has run to its end.  What a
    loop or a branch binds is not counted: its body may not run. *)
Definition binds (l : lang) (s : stmt) : list string :=
  match s with
  | ImportFrom _ name => [name]
  | Assign targets _ => flat_map target_names targets
  | ExprStmt (Call (Name "data") [Name x] _) =>
      match l with R => [x] | Python => [] end
  | Def name _ _ => [name]
  | _ => []
  end.

(** The names a statement binds on some run: those of the statements
    nested in it and the variables of its loops as well. *)
Definition loop_vars (s : stmt) : list string :=
  match s with
  | For vars _ _ => vars
  | _ => []
  end.

Definition may_bind (l : lang) (s : stmt) : list string :=
  flat_map (fun s' => binds l s' ++ loop_vars s') (substmts s).

(** The scope after a statement that ran to its end. *)
Definition after (l : lang) (s : stmt) (sc : scope) : scope :=
  Scope (binds l s ++ bound sc) (may_bind l s ++ maybe sc).

(** The reads of names that may be unbound in a statement, those of the
    statements nested in it included; a nested statement runs
    [Perhaps]. *)
Fixpoint stmt_unbound (l : lang) (sc : scope) (c : certainty) (s : stmt)
  : list (certainty * string) :=
  let block :=
    fix block (sc : scope) (body : list stmt) : list (certainty * string) :=
      match body with
      | [] => []
      | s' :: body' => stmt_unbound l sc Perhaps s' ++ block (after l s' sc) body'
      end in
  match s with
  | ImportFrom _ _ => []
  | Assign targets value =>
      unbound l sc c value ++ flat_map (target_unbound l sc c) targets
  | ExprStmt e | RaiseStmt e => unbound l sc c e
  | For vars iter body => unbound l sc c iter ++ block (bind_names vars sc) body
  | If cond body orelse => unbound l sc c cond ++ block sc body ++ block sc orelse
  | While cond body => unbound l sc c cond ++ block sc body
  | Try body handlers =>
      block sc body ++ flat_map (fun h => block sc h.2) handlers
  | Def _ params body => block (bind_names params sc) body
  end.

(** How the run of a cell ends as far as names go, every import and call
    that is reached taken to return:
    - [Completed]: every name the cell reads is bound on every run;
    - [NameError x]: the first read that can fail is of [x], which no run
      has bound, by a statement in the cell's top level: the cell stops
      there with NameError;
    - [PossibleNameError x]: the first read that can fail is of [x], and
      it fails on some runs only: it stands where a loop, a branch or a
      comprehension may never get, or a body that may not have run binds
      [x];
    - [SyntaxError]: the cell is no code. *)
Inductive outcome : Type :=
| Completed
| NameError (name : string)
| PossibleNameError (name : string)
| SyntaxError.

(** Runs the statements of a cell in order.  After a sure NameError the
    names bound so far stay bound; after a possible one, what the rest of
    the cell binds is bound on some runs only. *)
Fixpoint run_block (l : lang) (sc : scope) (body : list stmt) : scope * outcome :=
  match body with
  | [] => (sc, Completed)
  | s :: body' =>
      match stmt_unbound l sc Surely s with
      | [] => run_block l (after l s sc) body'
      | (Surely, x) :: _ => (sc, NameError x)
      | (Perhaps, x) :: _ =>
          (Scope (bound sc) (flat_map (may_bind l) body ++ maybe sc),
           PossibleNameError x)
      end
  end.

Definition run_cell (l : lang) (sc : scope) (c : cell) : scope * outcome :=
  match c with
  | Code body => run_block l sc body
  | NotCode _ => (sc, SyntaxError)
  end.

(** A fresh interpreter knows the built-in functions. *)
Definition fresh (l : lang) : scope := Scope (builtins l) (builtins l).

(** A cell run on its own, in a fresh interpreter. *)
Definition standalone (l : lang) (c : cell) : outcome :=
  (run_cell l (fresh l) c).2.

(** The cells of a document run from the top in one kernel: each cell
    sees what the cells before it bound. *)
Fixpoint run_cells (l : lang) (sc : scope) (cs : list cell) : list outcome :=
  match cs with
  | [] => []
  | c :: cs' =>
      let '(sc', o) := run_cell l sc c in
      o :: run_cells l sc' cs'
  end.

Definition top_to_bottom (d : document) : list outcome :=
  run_cells (language d) (fresh (language d)) (cells d).

(** *** Who reads a variable *)

Definition is_name (x : string) (e : expr) : bool :=
  match e with
  | Name y => String.eqb x y
  | _ => false
  end.

(** The expressions a statement evaluates for their value: an assigned
    name is not among them. *)
Definition rvalues (s : stmt) : list expr :=
  match s with
  | Assign targets value =>
      value :: filter is_subscript targets
  | _ => own_exprs s
  end.

Definition reads_name (x : string) (s : stmt) : bool :=
  existsb (is_name x) (flat_map subexprs (rvalues s)).

(** The statements of a cell that read the variable [x]. *)
Definition readers (x : string) (c : cell) : list stmt :=
  filter (reads_name x) (cell_stmts c).

End Names.

(** ** From the loaded data to the printed score *)

Module Dataflow.

(** The variable a store goes into: [x], [x[k]], [x.a], or each of
    [x, y = ...]. *)
Fixpoint base (e : expr) : list string :=
  match e with
  | Name x => [x]
  | Subscript e' _ | Attr e' _ => base e'
  | TupleE items | ListE items => flat_map base items
  | _ => []
  end.

(** What is known at a point of a cell: the variables computed from the
    data that the cell loaded, those computed from a score of a model on
    such data, and the printed expressions that are computed from a
    score. *)
Record flow : Type := Flow {
  from_data : list string;
  from_score : list string;
  metrics : list expr
}.

(** The calls that measure a model: scikit-learn's cross-validation,
    Keras' [model.evaluate], R's table of predictions against labels. *)
Definition scorers : list string := ["cross_val_score"; "evaluate"; "table"].

Definition reads_one_of (xs : list string) (e : expr) : bool :=
  match e with
  | Name x => bool_decide (x ∈ xs)
  | _ => false
  end.

Definition is_call_to (names : list string) (e : expr) : bool :=
  match e with
  | Call f _ _ => bool_decide (callee f ∈ names)
  | _ => false
  end.

(** An expression is computed from the data when it reads a variable that
    is, or calls a loader. *)
Definition on_data (fl : flow) (e : expr) : bool :=
  existsb (fun e' => reads_one_of (from_data fl) e' || is_call_to dataset_loaders e')
          (subexprs e).

(** It is computed from a score when it reads a variable that is, or
    calls a scorer on something computed from the data. *)
Definition on_score (fl : flow) (e : expr) : bool :=
  existsb (fun e' => reads_one_of (from_score fl) e'
                     || is_call_to scorers e' && on_data fl e')
          (subexprs e).

(** The object of each of [xs] takes the [value] in: it is computed from
    what the value is computed from, and from what it was before. *)
Definition taints (fl : flow) (xs : list string) (value : expr) : flow :=
  Flow (if on_data fl value then xs ++ from_data fl else from_data fl)
       (if on_score fl value then xs ++ from_score fl else from_score fl)
       (metrics fl).

Definition without (xs ys : list string) : list string :=
  filter (fun y => y ∉ xs) ys.

(** A target that stores into an object: [x[k] = ...], [x.a = ...]. *)
Definition is_store (t : expr) : bool :=
  match t with
  | Subscript _ _ | Attr _ _ => true
  | _ => false
  end.

(** [targets = value]: the variables assigned are the value now, whatever
    they were; the objects stored into take it in. *)
Definition assigns (fl : flow) (targets : list expr) (value : expr) : flow :=
  let xs := flat_map Names.target_names targets in
  let objects := flat_map base (filter (fun t => is_store t = true) targets) in
  Flow ((if on_data fl value then xs ++ objects else [])
        ++ without xs (from_data fl))
       ((if on_score fl value then xs ++ objects else [])
        ++ without xs (from_score fl))
       (metrics fl).

(** What a statement itself prints to standard output; R prints the
    values of the statements of the top level only. *)
Definition printed_by (l : lang) (top : bool) (s : stmt) : list expr :=
  omap printed_value (stmt_effects l [] s ++ (if top then auto_prints l s else [])).

(** A statement without statements nested in it: a print is recorded when
    its value is computed from a score; an assignment hands its value to
    its targets; a method call may store its arguments in its object
    ([model.add(e)], [estimators.append(...)]); R's [data(x)] loads into
    [x]. *)
Definition step (l : lang) (top : bool) (fl : flow) (s : stmt) : flow :=
  let fl := Flow (from_data fl) (from_score fl)
                 (metrics fl ++ filter (fun e => on_score fl e) (printed_by l top s)) in
  match s with
  | Assign targets value => assigns fl targets value
  | ExprStmt (Call (Attr obj _) args kwargs) =>
      taints fl (base obj) (TupleE (args ++ kwargs.*2))
  | ExprStmt (Call (Name "data") args _) =>
      match l with
      | R => Flow (flat_map base args ++ from_data fl) (from_score fl) (metrics fl)
      | Python => fl
      end
  | _ => fl
  end.

(** The statements in order; the body of a loop twice, for what one round
    leaves to the next. *)
Fixpoint run (l : lang) (top : bool) (fl : flow) (s : stmt) : flow :=
  let block :=
    fix block (fl : flow) (body : list stmt) : flow :=
      match body with
      | [] => fl
      | s' :: body' => block (run l false fl s') body'
      end in
  match s with
  | For vars iter body => block (block (taints fl vars iter) body) body
  | While _ body => block (block fl body) body
  | If _ body orelse => block (block fl body) orelse
  | Try body handlers => foldl (fun fl h => block fl h.2) (block fl body) handlers
  | Def _ _ _ => fl
  | ImportFrom _ _ | Assign _ _ | ExprStmt _ | RaiseStmt _ => step l top fl s
  end.

(** The printed expressions of a cell that are computed from a score of a
    model on the data the cell loaded. *)
Definition metric_prints (l : lang) (c : cell) : list expr :=
  match c with
  | Code body => metrics (foldl (run l true) (Flow [] [] []) body)
  | NotCode _ => []
  end.

(** A cell that runs the whole tutorial: it is code, loads its data, calls
    a modelling function and prints a score of the model on the data. *)
Definition tutorial_cell (l : lang) (c : cell) : bool :=
  is_code c && calls_any dataset_loaders c && calls_any model_apis c
  && bool_decide (metric_prints l c ≠ []).

Definition is_tutorial (d : document) : bool :=
  existsb (tutorial_cell (language d)) (cells d).

End Dataflow.

(** ** The output the notebooks have stored *)

Module Stored.

(** A notebook keeps, for every code cell that was run, what the run
    wrote to each of its two streams; the lines are given without their
    final newline. *)
Inductive stream : Type := Stdout | Stderr.

Record output : Type := Output { stream_of : stream; text : list string }.

Global Instance stream_eq_dec : EqDecision stream.
Proof. solve_decision. Defined.

(** Of the first complete listing of the word-embedding notebook. *)
Definition learned_embedding_listing_output : list output := [
  Output Stderr [
     "/Library/Frameworks/Python.framework/Versions/3.6/lib/python3.6/site-packages/h5py/__init__.py:36: FutureWarning: Conversion of the second argument of issubdtype from `float` to `np.floating` is deprecated. In future, it will be treated as `np.float64 == np.dtype(float).type`.";
     "  from ._conv import register_converters as _register_converters";
     "Using TensorFlow backend."
  ];
  Output Stdout [
     "[[15, 16], [17, 18], [36, 36], [19, 18], [6], [20], [11, 36], [38, 17], [11, 18], [19, 38, 16, 17]]";
     "[[15 16  0  0]";
     " [17 18  0  0]";
     " [36 36  0  0]";
     " [19 18  0  0]";
     " [ 6  0  0  0]";
     " [20  0  0  0]";
     " [11 36  0  0]";
     " [38 17  0  0]";
     " [11 18  0  0]";
     " [19 38 16 17]]";
     "_________________________________________________________________";
     "Layer (type)                 Output Shape              Param #   ";
     "=================================================================";
     "embedding_1 (Embedding)      (None, 4, 8)              400       ";
     "_________________________________________________________________";
     "flatten_1 (Flatten)          (None, 32)                0         ";
     "_________________________________________________________________";
     "dense_1 (Dense)              (None, 1)                 33        ";
     "=================================================================";
     "Total params: 433";
     "Trainable params: 433";
     "Non-trainable params: 0";
     "_________________________________________________________________";
     "None";
     "Accuracy: 80.000001"
  ]
].

(** Of the second complete listing. *)
Definition glove_listing_output : list output := [
  Output Stdout [
     "[[6, 2], [3, 1], [7, 4], [8, 1], [9], [10], [5, 4], [11, 3], [5, 1], [12, 13, 2, 14]]";
     "[[ 6  2  0  0]";
     " [ 3  1  0  0]";
     " [ 7  4  0  0]";
     " [ 8  1  0  0]";
     " [ 9  0  0  0]";
     " [10  0  0  0]";
     " [ 5  4  0  0]";
     " [11  3  0  0]";
     " [ 5  1  0  0]";
     " [12 13  2 14]]";
     "Loaded 400000 word vectors.";
     "_________________________________________________________________";
     "Layer (type)                 Output Shape              Param #   ";
     "=================================================================";
     "embedding_2 (Embedding)      (None, 4, 100)            1500      ";
     "_________________________________________________________________";
     "flatten_2 (Flatten)          (None, 400)               0         ";
     "_________________________________________________________________";
     "dense_2 (Dense)              (None, 1)                 401       ";
     "=================================================================";
     "Total params: 1,901";
     "Trainable params: 401";
     "Non-trainable params: 1,500";
     "_________________________________________________________________";
     "None";
     "Accuracy: 100.000000"
  ]
].

(** The stored outputs of the cells of each document, in the order of
    its cells.  No other cell of the word-embedding notebook was run; the
    R document is plain text and stores no output. *)
Definition word_embedding_outputs : list (list output) :=
  replicate 6 [] ++ [learned_embedding_listing_output] ++ replicate 5 []
  ++ [glove_listing_output].

Definition pipelines_outputs : list (list output) :=
  [[Output Stdout ["0.773462064251538"]];
   [Output Stdout ["0.7760423786739576"]]].

Definition tbptt_outputs : list (list output) := [[]].

Definition stored_outputs : list (document * list (list output)) :=
  [(word_embedding_notebook, word_embedding_outputs);
   (pipelines_notebook, pipelines_outputs);
   (tbptt_notebook, tbptt_outputs)].

Definition streams (outs : list (list output)) : list stream :=
  stream_of <$> concat outs.

(** The last line a cell wrote to standard output. *)
Definition last_line (out : list output) : option string :=
  last (flat_map text (filter (fun o => stream_of o = Stdout) out)).

End Stored.

Import Stored.

(** ** Further properties of the GloVe loops *)

Module GloveMore.

Section More.

Context {F : Type}.

(** A token as [split] yields them: not empty, no white space in it. *)
Definition is_token (w : string) : Prop :=
  w ≠ "" ∧ Forall (fun c => is_space c = false) (list_ascii_of_string w).

(** The last item of the tokenizer's index that writes row [k]: its index
    is [k] and its word has a vector. *)
Definition last_writer (embeddings_index : gmap string (list F))
    (word_index : list (string * Z)) (k : nat) : option (string * Z) :=
  last (filter (fun item => Z.to_nat item.2 = k
                            ∧ is_Some (embeddings_index !! item.1))
               word_index).

(** The dictionary without the words the tokenizer does not know. *)
Definition known_words (word_index : list (string * Z))
    (embeddings_index : gmap string (list F)) : gmap string (list F) :=
  filter (fun entry => entry.1 ∈ word_index.*1) embeddings_index.

End More.

End GloveMore.

Import Names Dataflow GloveMore.

(** ** More sample inputs *)

Module MoreSamples.

(** A parser that keeps the literal: every token counts as a number. *)
Definition keep (s : string) : option string := Some s.

(** The line of the GloVe file that the notebook shows, as a file. *)
Definition sample_file : list string := [glove_sample_line +:+ newline].

(** A second line whose last token is not a number. *)
Definition bad_number : list string :=
  ["the 1 2" +:+ newline; "of 3 x" +:+ newline].

(** Two lines with different first tokens. *)
Definition two_words : list string :=
  ["the 1 2" +:+ newline; "of 3 4" +:+ newline].

(** An index that is no row of a two-row matrix. *)
Definition far_index : list (string * Z) := [("a", 7%Z)].

(** Two words with the same index. *)
Definition shared_index : list (string * Z) := [("a", 1%Z); ("b", 1%Z)].

Definition ones_and_twos : gmap string (list Z) :=
  <["a" := replicate 100 1%Z]> (<["b" := replicate 100 2%Z]> ∅).

(** A fifty-dimensional embedding of the word [a]. *)
Definition fifty_ones : gmap string (list Z) := {["a" := replicate 50 1%Z]}.

(** Two records of nine columns. *)
Definition two_records : Pima.ndarray (V := Z) :=
  Pima.Ndarray 9 [[6; 148; 72; 35; 0; 33; 0; 50; 1]%Z;
                  [1; 85; 66; 29; 0; 26; 0; 31; 0]%Z].

End MoreSamples.

Import MoreSamples.

(** ** Lemmas on the loading loop *)

Section LoadingProofs.

Context {F : Type} (parse_float : string -> option F).

Lemma split_go_blank s :
  forallb is_space s = true → split_go [] s = [].
Proof.
  induction s as [|c s IH]; simpl; [done|].
  intros [Hc Hs]%andb_prop. rewrite Hc. auto.
Qed.

Lemma split_blank line : blank line = true → split line = [].
Proof. intros H. unfold split. by rewrite split_go_blank. Qed.

Lemma getitem_first {A} src (l : list A) :
  getitem src l 0 = match l with
                    | [] => Raise (Failure IndexError (AtRepositoryLine src))
                    | a :: _ => Ok a
                    end.
Proof. by destruct l. Qed.

Lemma load_line_no_token d line :
  split line = [] →
  load_line parse_float d line
  = Raise (Failure IndexError (AtRepositoryLine "word = values[0]")).
Proof. intros H. unfold load_line. by rewrite H. Qed.

Lemma load_line_well_formed d line :
  well_formed parse_float line = true →
  ∃ w v, first_token line = Some w ∧ coefficients parse_float line = Some v ∧
         load_line parse_float d line = Ok (<[w := v]> d).
Proof.
  unfold well_formed. intros [[w Hw] [v Hv]]%bool_decide_eq_true.
  exists w, v. split_and!; [done..|].
  unfold load_line, asarray. fold (coefficients parse_float line). rewrite Hv.
  rewrite getitem_first. unfold first_token in Hw.
  by destruct (split line); simplify_eq/=.
Qed.

Lemma load_line_Ok d line d' :
  load_line parse_float d line = Ok d' → well_formed parse_float line = true.
Proof.
  unfold load_line, well_formed, first_token, coefficients.
  rewrite getitem_first, bool_decide_eq_true.
  destruct (split line) as [|t ts]; [done|]. simpl.
  unfold asarray. destruct (mapM _ _) eqn:E; [|done]. intros _.
  split; eauto.
Qed.

Lemma for_each_app {A S} (body : S → A → result S) xs ys acc :
  for_each body (xs ++ ys) acc = bind (for_each body xs acc) (for_each body ys).
Proof.
  revert acc. induction xs as [|x xs IH]; intros acc; simpl; [done|].
  destruct (body acc x); simpl; auto.
Qed.

Lemma last_line_of_cons w line f :
  last_line_of w (line :: f)
  = match last_line_of w f with
    | Some l => Some l
    | None => if decide (first_token line = Some w) then Some line else None
    end.
Proof.
  unfold last_line_of. rewrite filter_cons.
  destruct (decide (first_token line = Some w)); [|by destruct (last _)].
  destruct (filter _ f) as [|l ls] eqn:E; [done|].
  rewrite last_cons. by destruct (last (l :: ls)).
Qed.

Lemma load_from d0 f :
  Forall (fun line => well_formed parse_float line = true) f →
  ∃ d, for_each (load_line parse_float) f d0 = Ok d ∧
       (∀ w, d !! w = match last_line_of w f with
                      | Some line => coefficients parse_float line
                      | None => d0 !! w
                      end) ∧
       dom d = dom d0 ∪ list_to_set (omap first_token f).
Proof.
  intros Hf. revert d0. induction Hf as [|line f Hl _ IH]; intros d0.
  - exists d0. split_and!; [done|done|set_solver].
  - destruct (load_line_well_formed d0 line Hl) as (w0 & v0 & Hw0 & Hv0 & Hload).
    destruct (IH (<[w0 := v0]> d0)) as (d & Hd & Hlook & Hdom).
    exists d. split_and!.
    + simpl. by rewrite Hload.
    + intros w. rewrite Hlook, last_line_of_cons.
      destruct (last_line_of w f); [done|].
      destruct (decide (first_token line = Some w)) as [E|E].
      * rewrite Hw0 in E. simplify_eq. by rewrite lookup_insert_eq.
      * rewrite lookup_insert_ne; [done|]. intros ->. by rewrite Hw0 in E.
    + rewrite Hdom, dom_insert_L. simpl. rewrite Hw0. simpl.
      set_solver.
Qed.

Lemma load_Ok_well_formed d0 f d :
  for_each (load_line parse_float) f d0 = Ok d →
  Forall (fun line => well_formed parse_float line = true) f.
Proof.
  revert d0. induction f as [|line f IH]; intros d0; simpl; [by constructor|].
  destruct (load_line parse_float d0 line) as [d1|e] eqn:E; simpl; [|done].
  intros Hrest. constructor; [by eapply load_line_Ok|by eapply IH].
Qed.

Lemma size_distinct (l : list string) :
  size (list_to_set (C := gset string) l) = length (remove_dups l).
Proof.
  rewrite <- (size_list_to_set (C := gset string) (remove_dups l)) by apply NoDup_remove_dups.
  f_equal. apply set_eq. intros x.
  by rewrite !elem_of_list_to_set, elem_of_remove_dups.
Qed.

Lemma length_omap_le {A B} (f : A → option B) (l : list A) :
  (length (omap f l) ≤ length l)%nat.
Proof.
  induction l as [|x l IH]; csimpl; [done|].
  destruct (f x); csimpl; lia.
Qed.

Lemma length_remove_dups_le {A} `{EqDecision A} (l : list A) :
  (length (remove_dups l) ≤ length l)%nat.
Proof.
  induction l as [|x l IH]; simpl; [done|].
  case_decide; simpl; lia.
Qed.

End LoadingProofs.

(** ** Lemmas on the weight-matrix loop *)

Section MatrixProofs.

Context {F : Type} (zero : F).
Implicit Types (M : list (list F)) (seen rest : list (string * Z)).
Implicit Types (ei : gmap string (list F)).

Lemma for_each_Raise {A S} (body : S → A → result S) xs acc e :
  for_each body xs acc = Raise e → ∃ acc' x, x ∈ xs ∧ body acc' x = Raise e.
Proof.
  revert acc. induction xs as [|x xs IH]; intros acc; simpl; [done|].
  destruct (body acc x) as [acc'|e'] eqn:E; simpl.
  - intros (a & y & Hy & Hb)%IH. exists a, y. split; [by right|done].
  - intros [= ->]. exists acc, x. split; [by left|done].
Qed.

Lemma zeros_invariant ei rows : invariant zero ei rows [] (zeros zero rows 100).
Proof.
  unfold zeros. split.
  - apply length_replicate.
  - apply Forall_replicate, length_replicate.
  - intros w i Hi. by apply elem_of_nil in Hi.
  - intros w i Hi. by apply elem_of_nil in Hi.
  - intros k Hk _. by apply lookup_replicate_2.
Qed.

Lemma setitem_row_in_range M i v :
  (0 ≤ i < Z.of_nat (length M))%Z →
  Forall (fun row => length row = 100) M → length v = 100 →
  setitem_row M i v = Ok (<[Z.to_nat i := v]> M).
Proof.
  intros Hi HM Hv. unfold setitem_row.
  assert ((i <? 0)%Z = false) as -> by lia.
  assert (((i <? - Z.of_nat (length M)) || (Z.of_nat (length M) <=? i))%Z = false)
    as -> by lia.
  destruct (lookup_lt_is_Some_2 M (Z.to_nat i)) as [old Hold]; [lia|].
  rewrite Hold. rewrite Forall_lookup in HM. rewrite (HM _ _ Hold).
  unfold broadcast_row. by rewrite decide_True.
Qed.

Lemma fill_row_step ei rows seen M w i :
  hundred_dimensional ei →
  invariant zero ei rows seen M →
  (0 ≤ i < Z.of_nat rows)%Z → i ∉ seen.*2 →
  ∃ M', fill_row ei M (w, i) = Ok M' ∧ invariant zero ei rows (seen ++ [(w, i)]) M'.
Proof.
  intros Hlen [Hrows Hcols Hrange Hseen Hrest] Hi Hfresh.
  assert (∀ w' i', (w', i') ∈ seen → Z.to_nat i' ≠ Z.to_nat i) as Hne.
  { intros w' i' Hin E. apply Hfresh.
    assert (i' = i) as <- by (specialize (Hrange _ _ Hin); lia).
    apply list_elem_of_fmap. by exists (w', i'). }
  unfold fill_row. destruct (ei !! w) as [v|] eqn:Ew.
  - exists (<[Z.to_nat i := v]> M). split.
    { apply setitem_row_in_range; [lia|done|eauto]. }
    split.
    + by rewrite length_insert.
    + apply Forall_insert; eauto.
    + intros w' i' [Hin|Hin%list_elem_of_singleton]%elem_of_app; [eauto|].
      by simplify_eq.
    + intros w' i' [Hin|Hin%list_elem_of_singleton]%elem_of_app.
      * rewrite list_lookup_insert_ne; [eauto|]. intros E. by eapply Hne.
      * simplify_eq. rewrite list_lookup_insert_eq by lia.
        unfold row_for. by rewrite Ew.
    + intros k Hk Hnot. rewrite list_lookup_insert_ne.
      * apply Hrest; [done|]. intros w' i' Hin. apply (Hnot w'), elem_of_app. by left.
      * apply (Hnot w), elem_of_app. right. by apply list_elem_of_singleton.
  - exists M. split; [done|]. split; [done..| | |].
    + intros w' i' [Hin|Hin%list_elem_of_singleton]%elem_of_app; [eauto|].
      by simplify_eq.
    + intros w' i' [Hin|Hin%list_elem_of_singleton]%elem_of_app; [eauto|].
      simplify_eq. unfold row_for. rewrite Ew. simpl.
      apply Hrest; [lia|]. intros w' i' Hin. by apply Hne with w'.
    + intros k Hk Hnot. apply Hrest; [done|].
      intros w' i' Hin. apply (Hnot w'), elem_of_app. by left.
Qed.

Lemma build_from ei rows seen rest M :
  hundred_dimensional ei →
  invariant zero ei rows seen M →
  NoDup (seen ++ rest).*2 →
  (∀ w i, (w, i) ∈ rest → (0 ≤ i < Z.of_nat rows)%Z) →
  ∃ M', for_each (fill_row ei) rest M = Ok M' ∧
        invariant zero ei rows (seen ++ rest) M'.
Proof.
  intros Hlen. revert seen M.
  induction rest as [|[w i] rest IH]; intros seen M Hinv Hnd Hrange.
  - exists M. by rewrite app_nil_r.
  - rewrite fmap_app, fmap_cons in Hnd. simpl in Hnd.
    destruct (fill_row_step ei rows seen M w i) as (M1 & HM1 & Hinv1); [done..| | |].
    { apply (Hrange w). by left. }
    { apply NoDup_app in Hnd as (_ & Hdisj & _). intros Hin.
      apply (Hdisj _ Hin). by left. }
    destruct (IH (seen ++ [(w, i)]) M1) as (M' & HM' & Hinv'); [done| | |].
    { rewrite <- app_assoc. simpl. by rewrite fmap_app, fmap_cons. }
    { intros w' i' Hin. apply (Hrange w'). by right. }
    exists M'. split.
    + cbn [for_each]. by rewrite HM1.
    + by rewrite <- app_assoc in Hinv'.
Qed.

Lemma tokenizer_indices_in_bounds word_index w i :
  tokenizer_indices word_index → (w, i) ∈ word_index →
  (1 ≤ i < Z.of_nat (vocab_size word_index))%Z.
Proof.
  intros [_ Hr] Hin. rewrite Forall_forall in Hr. specialize (Hr _ Hin).
  unfold vocab_size. simpl in Hr. lia.
Qed.

Lemma build_aligned ei word_index :
  hundred_dimensional ei →
  tokenizer_indices word_index →
  ∃ M, build_embedding_matrix zero word_index ei = Ok M ∧
       aligned zero ei word_index M.
Proof.
  intros Hlen Htok.
  destruct (build_from ei (vocab_size word_index) [] word_index
              (zeros zero (vocab_size word_index) 100)) as (M & HM & Hinv);
    [done|apply zeros_invariant|apply Htok|
     intros w i Hin; by destruct (tokenizer_indices_in_bounds _ w i Htok Hin); lia|].
  by exists M.
Qed.

End MatrixProofs.

(** ** The GloVe loops *)

Section GloveClaims.

Context {F : Type} (parse_float : string -> option F) (zero : F).

(** C8.  A line without tokens (empty, or white space only) makes the
    loop body fail: [line.split()] is the empty list and [values[0]] raises
    IndexError at the repository's own statement.  The line is not
    skipped: a file whose earlier lines load and which then has such a
    line makes the whole loading loop end in that IndexError, whatever
    follows the line. *)
Theorem blank_line_raises_IndexError (before after : list string) (line : string)
    (d : gmap string (list F)) :
  load_embeddings parse_float before = Ok d →
  blank line = true →
  split line = []
  ∧ load_line parse_float d line
    = Raise (Failure IndexError (AtRepositoryLine "word = values[0]"))
  ∧ load_embeddings parse_float (before ++ line :: after)
    = Raise (Failure IndexError (AtRepositoryLine "word = values[0]")).
Proof.
  intros Hbefore Hblank.
  pose proof (split_blank line Hblank) as Hsplit.
  split_and!; [done|by apply load_line_no_token|].
  unfold load_embeddings in *. rewrite for_each_app, Hbefore. simpl.
  by rewrite load_line_no_token.
Qed.

(** C9.  When every line of the file is accepted by the loop body, the
    loading cell ends with a dictionary that maps each first token to the
    coefficients of the last line starting with that token (later lines
    overwrite earlier ones), and it prints the number of distinct first
    tokens as the count of loaded word vectors.  These are all the files
    for which the loop builds a dictionary.  The count never exceeds the
    number of lines and is strictly smaller for some files: two lines
    holding the same single token load as one vector. *)
Theorem loaded_dictionary_keeps_last_occurrence :
  (∀ (f : list string) d,
     load_embeddings parse_float f = Ok d →
     Forall (fun line => well_formed parse_float line = true) f)
  ∧ (∀ (fs : files) (f : list string),
     fs !! "glove.6B.100d.txt" = Some (Text f) →
     Forall (fun line => well_formed parse_float line = true) f →
     ∃ d, load_cell parse_float fs
          = Ok (d, "Loaded " +:+ pretty (length (distinct_first_tokens f))
                   +:+ " word vectors.")
          ∧ (∀ w, d !! w = last_line_of w f ≫= coefficients parse_float)
          ∧ size d = length (distinct_first_tokens f)
          ∧ (length (distinct_first_tokens f) ≤ length f)%nat)
  ∧ (∃ f d, load_embeddings parse_float f = Ok d ∧ (size d < length f)%nat).
Proof.
  split_and!.
  - intros f d. apply load_Ok_well_formed.
  - intros fs f Hfile Hf.
    destruct (load_from parse_float ∅ f Hf) as (d & Hd & Hlook & Hdom).
    assert (size d = length (distinct_first_tokens f)) as Hsize.
    { rewrite <- size_dom, Hdom, dom_empty_L, (left_id_L ∅ (∪)).
      apply size_distinct. }
    exists d. split_and!.
    + unfold load_cell, open, load_embeddings, loaded_message.
      rewrite Hfile. simpl. rewrite Hd. simpl. by rewrite Hsize.
    + intros w. rewrite Hlook. destruct (last_line_of w f); [done|].
      apply lookup_empty.
    + done.
    + unfold distinct_first_tokens.
      etrans; [apply length_remove_dups_le|]. apply length_omap_le.
  - exists ["a"; "a"], {["a" := []]}. split; [|rewrite map_size_singleton; simpl; lia].
    unfold load_embeddings. simpl. by rewrite insert_insert_eq.
Qed.

(** C5 (amended).  When the tokenizer's indices are distinct and lie in
    1..len(t.word_index), and every vector of [embeddings_index] has 100
    coefficients, the weight-matrix loop ends without an exception; every
    index written is a row of the matrix of [vocab_size] rows; the row of
    a word's index holds that word's vector when [embeddings_index] has
    the word and is zero otherwise; and row 0 is zero. *)
Theorem weight_matrix_rows (word_index : list (string * Z))
    (embeddings_index : gmap string (list F)) :
  tokenizer_indices word_index →
  hundred_dimensional embeddings_index →
  ∃ M, build_embedding_matrix zero word_index embeddings_index = Ok M
       ∧ length M = vocab_size word_index
       ∧ (∀ w i, (w, i) ∈ word_index →
            (0 ≤ i < Z.of_nat (vocab_size word_index))%Z
            ∧ M !! Z.to_nat i
              = Some (default (replicate 100 zero) (embeddings_index !! w)))
       ∧ M !! 0 = Some (replicate 100 zero).
Proof.
  intros Htok Hlen.
  destruct (build_aligned zero embeddings_index word_index Hlen Htok)
    as (M & HM & [Hrows _ Hrange Hseen Hrest]).
  exists M. split_and!; [done|done| |].
  - intros w i Hin. split; [by eapply Hrange|by apply Hseen].
  - apply Hrest; [unfold vocab_size; lia|].
    intros w i Hin. pose proof (tokenizer_indices_in_bounds _ w i Htok Hin). lia.
Qed.

(** C2 (amended).  The embedding matrix carries an invariant that the
    repository's own loop establishes and preserves: the matrix that
    [zeros] returns satisfies it for no item seen; each iteration of the
    loop body extends it by the item it handles; and at the end of the
    loop the matrix is aligned with the tokenizer, row by row, as the
    Embedding layer needs it.  The dictionary and the matrix of the
    word-embedding notebook are the only objects that repository code
    writes through a subscript; the other documents have no such store. *)
Theorem embedding_matrix_invariant (embeddings_index : gmap string (list F)) :
  hundred_dimensional embeddings_index →
  subscript_stores word_embedding_notebook
  = [Subscript (Name "embeddings_index") [Name "word"];
     Subscript (Name "embedding_matrix") [Name "i"];
     Subscript (Name "embeddings_index") [Name "word"];
     Subscript (Name "embedding_matrix") [Name "i"]]
  ∧ Forall (fun d => d = word_embedding_notebook ∨ subscript_stores d = [])
           repository
  ∧ (∀ rows, invariant zero embeddings_index rows [] (zeros zero rows 100))
  ∧ (∀ rows seen M w i,
       invariant zero embeddings_index rows seen M →
       (0 ≤ i < Z.of_nat rows)%Z → i ∉ seen.*2 →
       ∃ M', fill_row embeddings_index M (w, i) = Ok M'
             ∧ invariant zero embeddings_index rows (seen ++ [(w, i)]) M')
  ∧ (∀ word_index,
       tokenizer_indices word_index →
       ∃ M, build_embedding_matrix zero word_index embeddings_index = Ok M
            ∧ aligned zero embeddings_index word_index M).
Proof.
  intros Hlen. split_and!.
  - reflexivity.
  - repeat constructor; by (left + right).
  - intros rows. apply zeros_invariant.
  - intros rows seen M w i. by apply fill_row_step.
  - intros word_index. by apply build_aligned.
Qed.


End GloveClaims.

(** ** The loops on sample inputs *)

(** Closes a decidable goal about concrete data by evaluation. *)
Ltac by_decide :=
  match goal with |- ?P => exact (bool_decide_unpack P I) end.

(** The line of the GloVe file that the notebook shows has the word and
    its hundred coefficients. *)
Example sample_line_tokens :
  first_token glove_sample_line = Some "the"
  ∧ length (split glove_sample_line) = 101.
Proof. split; reflexivity. Qed.

(** C8 on a file with an empty line between two entries. *)
Lemma empty_line_raises_IndexError :
  split newline = []
  ∧ load_line parse_int (<["the" := [1; 2]%Z]> ∅) newline
    = Raise (Failure IndexError (AtRepositoryLine "word = values[0]"))
  ∧ load_embeddings parse_int with_empty_line
    = Raise (Failure IndexError (AtRepositoryLine "word = values[0]")).
Proof.
  exact (blank_line_raises_IndexError parse_int
           ["the 1 2" +:+ newline] ["of 3 4" +:+ newline] newline
           (<["the" := [1; 2]%Z]> ∅) eq_refl eq_refl).
Defined.

(** C9 on a file whose third line repeats the first token of the first. *)
Lemma repeated_word_is_loaded_once :
  ∃ d, load_cell parse_int {["glove.6B.100d.txt" := Text repeated_word]}
       = Ok (d, "Loaded " +:+ pretty (length (distinct_first_tokens repeated_word))
                +:+ " word vectors.")
       ∧ (∀ w, d !! w = last_line_of w repeated_word ≫= coefficients parse_int)
       ∧ size d = length (distinct_first_tokens repeated_word)
       ∧ (length (distinct_first_tokens repeated_word) ≤ length repeated_word)%nat.
Proof.
  apply (proj1 (proj2 (loaded_dictionary_keeps_last_occurrence parse_int))
           {["glove.6B.100d.txt" := Text repeated_word]} repeated_word).
  - reflexivity.
  - repeat (constructor; [reflexivity|]). constructor.
Defined.

(** C5 as stated fails: a vector with a single coefficient is broadcast
    over the row, so the loop ends and row 1 is a hundred times 5, not the
    vector [5] that [embeddings_index] holds for the word. *)
Lemma one_coefficient_is_broadcast :
  tokenizer_indices one_word
  ∧ build_embedding_matrix 0%Z one_word one_coefficient
    = Ok [replicate 100 0%Z; replicate 100 5%Z]
  ∧ ¬ rows_are_vectors one_coefficient one_word
        [replicate 100 0%Z; replicate 100 5%Z].
Proof.
  split_and!.
  - by_decide.
  - reflexivity.
  - intros H. specialize (H "a" 1%Z [5%Z]).
    discriminate H; [by left|reflexivity].
Qed.

(** C5 (amended) on a hundred-dimensional embedding of one word. *)
Lemma one_word_rows :
  ∃ M, build_embedding_matrix 0%Z one_word hundred_ones = Ok M
       ∧ length M = vocab_size one_word
       ∧ (∀ w i, (w, i) ∈ one_word →
            (0 ≤ i < Z.of_nat (vocab_size one_word))%Z
            ∧ M !! Z.to_nat i
              = Some (default (replicate 100 0%Z) (hundred_ones !! w)))
       ∧ M !! 0 = Some (replicate 100 0%Z).
Proof.
  apply (weight_matrix_rows 0%Z one_word hundred_ones).
  - by_decide.
  - by_decide.
Defined.

(** C2 as stated fails: the matrix as the library call [zeros] returns it
    is not aligned with the tokenizer; the alignment is the work of the
    repository's loop. *)
Lemma zeros_alone_is_not_aligned :
  tokenizer_indices one_word
  ∧ hundred_dimensional hundred_ones
  ∧ ¬ aligned 0%Z hundred_ones one_word (zeros 0%Z (vocab_size one_word) 100).
Proof.
  split_and!.
  - by_decide.
  - by_decide.
  - intros [_ _ _ Hseen _]. specialize (Hseen "a" 1%Z).
    discriminate Hseen. by left.
Qed.

(** C2 (amended) on a hundred-dimensional embedding of one word. *)
Lemma one_word_matrix_is_aligned :
  ∃ M, build_embedding_matrix 0%Z one_word hundred_ones = Ok M
       ∧ aligned 0%Z hundred_ones one_word M.
Proof.
  apply (embedding_matrix_invariant 0%Z hundred_ones).
  - by_decide.
  - by_decide.
Defined.



(** ** The documents *)

(** Case analysis on a document of the repository. *)
Ltac each_document H :=
  repeat (apply elem_of_cons in H as [-> | H]);
  [..|by apply elem_of_nil in H].

(** C1 as stated fails: the word-embedding notebook is not straight-line
    code.  Its loading cell has a [for] loop over the lines of the file. *)
Lemma word_embedding_notebook_has_loops :
  word_embedding_notebook ∈ repository
  ∧ doc_straight_line word_embedding_notebook = false
  ∧ constructs (Code load_glove) = [Loop ["line"] (Name "f")].
Proof. split_and!; [by left|reflexivity..]. Qed.

(** C1 (amended).  Every document other than the word-embedding notebook
    is straight-line code: a sequence of imports, assignments and library
    calls.  The word-embedding notebook has, besides, a list comprehension
    over the documents, the loop over the lines of the GloVe file, and the
    loop over the tokenizer's items with its test for a missing vector
    (each once in a cell of its own and once in a complete listing). *)
Theorem control_logic_is_in_word_embedding_notebook :
  (∀ d, d ∈ repository → d ≠ word_embedding_notebook →
        doc_straight_line d = true)
  ∧ flat_map constructs (cells word_embedding_notebook)
    = [Comprehension "d" (Name "docs");
       Comprehension "d" (Name "docs");
       Loop ["line"] (Name "f");
       Loop ["word"; "i"] (Call (Attr (Attr (Name "t") "word_index") "items") [] []);
       Branch (BinOp "is not" (Name "embedding_vector") NoneE);
       Loop ["line"] (Name "f");
       Loop ["word"; "i"] (Call (Attr (Attr (Name "t") "word_index") "items") [] []);
       Branch (BinOp "is not" (Name "embedding_vector") NoneE)].
Proof.
  split; [|reflexivity].
  intros d Hd Hne. each_document Hd; [done|reflexivity..].
Qed.

Lemma pipelines_notebook_is_straight_line :
  doc_straight_line pipelines_notebook = true.
Proof.
  apply (proj1 control_logic_is_in_word_embedding_notebook).
  - right. left.
  - discriminate.
Defined.

(** C3 as stated fails: the TBPTT notebook has no cell that loads data,
    calls a library and prints a score; its only code cell is not code.
    And the word-embedding notebook loads no data set: its documents are
    literals of the code, and the only file it opens is the pre-trained
    embedding file. *)
Lemma tbptt_notebook_runs_nothing :
  tbptt_notebook ∈ repository
  ∧ is_tutorial tbptt_notebook = false
  ∧ forallb is_code (cells tbptt_notebook) = false
  ∧ filter (fun cs => cs_callee cs ∈ dataset_loaders)
           (doc_calls word_embedding_notebook)
    = [CallSite "open" [Str "glove.6B.100d.txt"] [];
       CallSite "open" [Str "glove.6B.100d.txt"] []]
  ∧ head define_documents
    = Some (assign "docs"
              (ListE (Str <$> ["Well done!"; "Good work"; "Great effort";
                               "nice work"; "Excellent!"; "Weak"; "Poor effort!";
                               "not good"; "poor work";
                               "Could have done better."]))).
Proof. split_and!; [by repeat constructor|reflexivity..]. Qed.

(** C3 (amended).  Every document other than the TBPTT notebook has a
    code cell that loads its data, calls a modelling function of a
    library and prints an accuracy metric: a value computed from a score
    of the model on the loaded data.  The pipelines notebook prints the
    mean of the cross-validation scores in each cell, the complete GloVe
    listing prints the accuracy that [model.evaluate] returned, and each
    R chunk prints the table of the predictions against the species.  The
    TBPTT notebook has a single code cell, which holds a formula of the
    text and no statement; it loads nothing and prints nothing. *)
Theorem documents_but_tbptt_are_tutorials :
  (∀ d, d ∈ repository → d ≠ tbptt_notebook → is_tutorial d = true)
  ∧ Forall (fun c => metric_prints Python c = [method "results" "mean" [] []])
           (cells pipelines_notebook)
  ∧ metric_prints Python glove_listing
    = [BinOp "%" (Str "Accuracy: %f") (BinOp "*" (Name "accuracy") (Int 100))]
  ∧ Forall (fun c => metric_prints R c
                     = [call "table" [Name "predictions";
                                      Attr (Name "iris") "Species"] []])
           (cells nonlinear_classification_in_R)
  ∧ cells tbptt_notebook = [NotCode "yhat(t) = f(X(t), X(t-1), X(t-2), ... X(t-n))"]
  ∧ effects tbptt_notebook = [].
Proof.
  split_and!; [|by repeat constructor|reflexivity|by repeat constructor|reflexivity..].
  intros d Hd Hne. each_document Hd; [reflexivity..|done].
Qed.

Lemma pipelines_notebook_is_a_tutorial : is_tutorial pipelines_notebook = true.
Proof.
  apply (proj1 documents_but_tbptt_are_tutorials).
  - right. left.
  - discriminate.
Defined.

(** C6 as stated fails: a run has effects beyond reads and metrics on
    standard output.  The run of the first complete listing that the
    word-embedding notebook has stored wrote three lines to standard
    error, the last one [Using TensorFlow backend.]; no statement of the
    listing writes there, the text comes out of the libraries it
    imports.  And the text on standard output is not metrics only: its
    first line is the encoded documents, which the listing prints. *)
Lemma keras_listing_wrote_to_stderr :
  cells word_embedding_notebook !! 6 = Some learned_embedding_listing
  ∧ word_embedding_outputs !! 6 = Some learned_embedding_listing_output
  ∧ stream_of <$> learned_embedding_listing_output = [Stderr; Stdout]
  ∧ (text <$> head learned_embedding_listing_output) ≫= last
    = Some "Using TensorFlow backend."
  ∧ filter writes_elsewhere (cell_effects Python learned_embedding_listing) = []
  ∧ ¬ Forall (fun o => stream_of o = Stdout) (concat word_embedding_outputs)
  ∧ head (omap printed_value (cell_effects Python learned_embedding_listing))
    = Some (Name "encoded_docs")
  ∧ (text <$> learned_embedding_listing_output !! 1) ≫= head
    = Some ("[[15, 16], [17, 18], [36, 36], [19, 18], [6], [20], [11, 36], "
            +:+ "[38, 17], [11, 18], [19, 38, 16, 17]]").
Proof.
  split_and!; [reflexivity..| |reflexivity|reflexivity].
  intros H. apply Forall_cons in H as [H _]. discriminate H.
Qed.

(** C6 (amended).  What the statements of the repository do themselves
    outside their process is reading the CSV file of the Pima data set,
    reading the GloVe text file, and printing to standard output, the
    accuracy metrics among the printed values; no statement opens a file
    for writing or prints to another stream.  All the rest of a run
    happens inside the third-party libraries that the statements import
    and call, and shows outside as well: of the stored runs, the first
    Keras listing wrote to standard error and to standard output, the
    other three to standard output only, each ending with the line of
    its metric.  The pipelines notebook reads the CSV file once per cell,
    the word-embedding notebook reads the GloVe file in the loading cell
    and in the complete listing, the other two documents read nothing. *)
Theorem statements_read_and_print :
  Forall (fun d =>
            forallb (reads_prints_or_delegates [pima_url; "glove.6B.100d.txt"])
                    (effects d) = true
            ∧ writes d = []) repository
  ∧ reads pipelines_notebook = [pima_url; pima_url]
  ∧ reads word_embedding_notebook = ["glove.6B.100d.txt"; "glove.6B.100d.txt"]
  ∧ reads nonlinear_classification_in_R = []
  ∧ reads tbptt_notebook = []
  ∧ Forall (fun d => d = tbptt_notebook
                     ∨ ∃ c m, c ∈ cells d ∧ m ∈ metric_prints (language d) c
                              ∧ m ∈ prints d) repository
  ∧ Forall (fun c => length (omap printed_value (cell_effects R c)) = 2)
           (cells nonlinear_classification_in_R)
  ∧ calls word_embedding_notebook
    = ["one_hot"; "array"; "Tokenizer"; "fit_on_texts"; "texts_to_sequences";
       "pad_sequences"; "dict"; "split"; "asarray"; "close"; "len"; "zeros";
       "items"; "get"; "Sequential"; "Embedding"; "Flatten"; "Dense"; "add";
       "compile"; "summary"; "fit"; "evaluate"]
  ∧ calls pipelines_notebook
    = ["StandardScaler"; "LinearDiscriminantAnalysis"; "read_csv"; "PCA";
       "SelectKBest"; "FeatureUnion"; "LogisticRegression"; "append";
       "Pipeline"; "KFold"; "cross_val_score"; "mean"]
  ∧ calls nonlinear_classification_in_R
    = ["mda"; "qda"; "rda"; "nnet"; "fda"; "ksvm"; "knn3"; "data";
       "naiveBayes"; "summary"; "predict"; "table"]
  ∧ calls tbptt_notebook = []
  ∧ Forall (fun stored => length stored.2 = length (cells stored.1)) stored_outputs
  ∧ streams word_embedding_outputs = [Stderr; Stdout; Stdout]
  ∧ streams pipelines_outputs = [Stdout; Stdout]
  ∧ streams tbptt_outputs = []
  ∧ last_line <$> filter (fun out => out ≠ []) (word_embedding_outputs ++ pipelines_outputs)
    = [Some "Accuracy: 80.000001"; Some "Accuracy: 100.000000";
       Some "0.773462064251538"; Some "0.7760423786739576"].
Proof.
  split_and!; try reflexivity; try (by repeat constructor).
  repeat (apply Forall_cons; split); [| | | |apply Forall_nil_2].
  - right. exists glove_listing,
      (BinOp "%" (Str "Accuracy: %f") (BinOp "*" (Name "accuracy") (Int 100))).
    split_and!.
    + do 12 right. left.
    + vm_compute. left.
    + vm_compute. do 3 right. left.
  - right. exists pipeline_1, (method "results" "mean" [] []).
    split_and!; vm_compute; left.
  - right. exists (recipe "mda" (fit_with "mda" []) (predict_with [])),
      (call "table" [Name "predictions"; Attr (Name "iris") "Species"] []).
    split_and!.
    + left.
    + vm_compute. left.
    + vm_compute. right. left.
  - by left.
Qed.

(** C10.  No call of any document asks for parallel workers, for a
    worker pool or for a timeout, and no document imports a module for
    threads, processes or asynchronous tasks; each statement runs to its
    end before the next.  In particular both calls of [cross_val_score]
    pass [cv=kfold] as their only keyword: no [n_jobs]. *)
Theorem no_concurrency_is_requested :
  Forall (fun d => concurrency_requests d = [] ∧ concurrency_imports d = [])
         repository
  ∧ Forall (fun cs => cs_kwargs cs = [("cv", Name "kfold")])
           (flat_map (calls_to "cross_val_score") repository)
  ∧ length (flat_map (calls_to "cross_val_score") repository) = 2.
Proof. split_and!; [by repeat constructor..|reflexivity]. Qed.

(** ** More on the loading loop *)

Section LoadingMore.

Context {F : Type} (parse_float : string -> option F).

Lemma split_go_tokens tok s :
  Forall (fun c => is_space c = false) tok →
  Forall (fun t => t ≠ [] ∧ Forall (fun c => is_space c = false) t)
         (split_go tok s).
Proof.
  revert tok. induction s as [|c s IH]; intros tok Htok; simpl.
  - destruct tok as [|c' tok']; [by constructor|].
    constructor; [|by constructor]. split.
    + intros E. apply (f_equal length) in E.
      rewrite length_rev in E. done.
    + by apply Forall_rev.
  - destruct (is_space c) eqn:Ec.
    + destruct tok as [|c' tok']; [by apply IH|].
      constructor; [|by apply IH]. split.
      * intros E. apply (f_equal length) in E.
        rewrite length_rev in E. done.
      * by apply Forall_rev.
    + apply IH. by constructor.
Qed.

Lemma split_tokens line w : w ∈ split line → is_token w.
Proof.
  unfold split. intros (t & -> & Ht)%list_elem_of_fmap.
  pose proof (split_go_tokens [] (list_ascii_of_string line) (Forall_nil_2 _)) as H.
  rewrite Forall_forall in H. destruct (H t Ht) as [Hne Hsp].
  split.
  - intros E. apply Hne. by destruct t.
  - by rewrite list_ascii_of_string_of_list_ascii.
Qed.

Lemma first_token_elem line w : first_token line = Some w → w ∈ split line.
Proof.
  unfold first_token. destruct (split line); [done|]. intros [= ->]. by left.
Qed.

Lemma coefficients_length line v :
  is_Some (first_token line) → coefficients parse_float line = Some v →
  length (split line) = S (length v).
Proof.
  unfold first_token, coefficients. intros [w Hw] Hv.
  apply length_mapM in Hv. destruct (split line); simplify_eq/=.
  rewrite drop_0 in Hv. by rewrite Hv.
Qed.

Lemma loaded_entry f d w v :
  load_embeddings parse_float f = Ok d → d !! w = Some v →
  ∃ line, line ∈ f ∧ first_token line = Some w
          ∧ coefficients parse_float line = Some v
          ∧ last_line_of w f = Some line.
Proof.
  intros Hload Hw. pose proof (load_Ok_well_formed _ _ _ _ Hload) as Hf.
  destruct (load_from parse_float ∅ f Hf) as (d' & Hd' & Hlook & _).
  unfold load_embeddings in Hload. rewrite Hload in Hd'. simplify_eq.
  rewrite Hlook in Hw. destruct (last_line_of w f) as [line|] eqn:El; [|done].
  exists line. unfold last_line_of in El.
  apply last_Some_elem_of, list_elem_of_filter in El as El'.
  by destruct El'.
Qed.

(** X1.  Every key of the dictionary is a token: it is not the empty string
    and holds no white space. *)
Theorem loaded_keys_are_tokens (f : list string) (d : gmap string (list F)) w :
  load_embeddings parse_float f = Ok d → is_Some (d !! w) → is_token w.
Proof.
  intros Hload [v Hv].
  destruct (loaded_entry f d w v Hload Hv) as (line & _ & Hw & _).
  by eapply split_tokens, first_token_elem.
Qed.

(** X2.  Every entry of the dictionary comes from a line of the file: the
    line starts with the key and the vector has one number for each
    further token of the line. *)
Theorem loaded_vector_has_one_number_per_token
    (f : list string) (d : gmap string (list F)) w v :
  load_embeddings parse_float f = Ok d → d !! w = Some v →
  ∃ line, line ∈ f ∧ first_token line = Some w
          ∧ mapM parse_float (drop 1 (split line)) = Some v
          ∧ length (split line) = S (length v).
Proof.
  intros Hload Hv.
  destruct (loaded_entry f d w v Hload Hv) as (line & Hin & Hw & Hc & _).
  exists line. split_and!; [done..|].
  by eapply coefficients_length.
Qed.

(** X3.  A line that has a first token but a further token that is not a
    number makes [asarray] raise ValueError; the loop ends there,
    whatever follows, and nothing of the line is stored. *)
Theorem bad_number_raises_ValueError (before after : list string) (line : string)
    (d : gmap string (list F)) :
  load_embeddings parse_float before = Ok d →
  is_Some (first_token line) →
  coefficients parse_float line = None →
  load_embeddings parse_float (before ++ line :: after)
  = Raise (Failure ValueError (InLibraryCall "asarray")).
Proof.
  intros Hbefore [w Hw] Hc. unfold load_embeddings in *.
  rewrite for_each_app, Hbefore. simpl.
  unfold load_line, asarray. fold (coefficients parse_float line). rewrite Hc.
  rewrite getitem_first. unfold first_token in Hw.
  by destruct (split line).
Qed.

Lemma load_line_shape line :
  (∃ w v, ∀ d, load_line parse_float d line = Ok (<[w := v]> d))
  ∨ (∃ e, ∀ d, load_line parse_float d line = Raise e).
Proof.
  unfold load_line. rewrite getitem_first.
  destruct (split line) as [|w ts]; [right; by eexists|].
  destruct (asarray parse_float (drop 1 (w :: ts))) as [v|e] eqn:E.
  - left. by exists w, v.
  - right. by exists e.
Qed.

Lemma load_onto d0 f :
  for_each (load_line parse_float) f d0
  = match for_each (load_line parse_float) f ∅ with
    | Ok d => Ok (d ∪ d0)
    | Raise e => Raise e
    end.
Proof.
  revert d0. induction f as [|line f IH]; intros d0; simpl.
  - by rewrite (left_id_L ∅ (∪)).
  - destruct (load_line_shape line) as [(w & v & H)|(e & H)].
    + rewrite !H. simpl. rewrite (IH (<[w := v]> d0)), (IH (<[w := v]> ∅)).
      destruct (for_each _ f ∅) as [d|e]; [|done].
      by rewrite insert_empty, <- (assoc_L (∪)), <- insert_union_singleton_l.
    + by rewrite !H.
Qed.

(** X4.  Loading two files one after the other is merging their dictionaries,
    the second file winning on the words both have. *)
Theorem load_concatenation (f1 f2 : list string) (d1 d2 : gmap string (list F)) :
  load_embeddings parse_float f1 = Ok d1 →
  load_embeddings parse_float f2 = Ok d2 →
  load_embeddings parse_float (f1 ++ f2) = Ok (d2 ∪ d1).
Proof.
  unfold load_embeddings. intros H1 H2.
  rewrite for_each_app, H1. simpl. by rewrite load_onto, H2.
Qed.

Lemma at_most_one_line (f : list string) w :
  NoDup (omap first_token f) →
  (length (filter (fun line => first_token line = Some w) f) ≤ 1)%nat.
Proof.
  induction f as [|line f IH]; csimpl; [lia|].
  rewrite filter_cons. destruct (first_token line) as [w'|] eqn:Ew; csimpl.
  - intros [Hnot Hnd]%NoDup_cons. case_decide as E; [|by apply IH].
    simplify_eq. simpl.
    destruct (filter _ f) as [|l ls] eqn:Ef; [simpl; lia|].
    exfalso. apply Hnot. apply list_elem_of_omap. exists l.
    assert (l ∈ filter (fun line => first_token line = Some w) f) as Hl
      by (rewrite Ef; by left).
    by apply list_elem_of_filter in Hl as [? ?].
  - intros Hnd. repeat case_decide; try done; by apply IH.
Qed.

Lemma last_line_of_Permutation f f' w :
  f ≡ₚ f' → NoDup (omap first_token f) →
  last_line_of w f = last_line_of w f'.
Proof.
  intros Hp Hnd. unfold last_line_of.
  pose proof (at_most_one_line f w Hnd) as Hlen.
  assert (filter (fun line => first_token line = Some w) f
          ≡ₚ filter (fun line => first_token line = Some w) f') as Hpf
    by (by rewrite Hp).
  destruct (filter _ f) as [|l [|l' ls]]; simpl in Hlen; [| |lia].
  - apply Permutation_nil_l in Hpf. by rewrite <- Hpf.
  - apply Permutation_singleton_l in Hpf. by rewrite <- Hpf.
Qed.

(** X5.  When no two lines start with the same token, the order of the lines
    does not matter: every rearrangement of the file loads as the same
    dictionary. *)
Theorem load_is_order_independent (f f' : list string) (d : gmap string (list F)) :
  f ≡ₚ f' → NoDup (omap first_token f) →
  load_embeddings parse_float f = Ok d →
  load_embeddings parse_float f' = Ok d.
Proof.
  intros Hp Hnd Hload.
  pose proof (load_Ok_well_formed _ _ _ _ Hload) as Hf.
  assert (Forall (fun line => well_formed parse_float line = true) f') as Hf'
    by (by rewrite <- Hp).
  destruct (load_from parse_float ∅ f Hf) as (d1 & Hd1 & Hlook1 & _).
  destruct (load_from parse_float ∅ f' Hf') as (d2 & Hd2 & Hlook2 & _).
  unfold load_embeddings in *. rewrite Hload in Hd1. simplify_eq.
  rewrite Hd2. f_equal. apply map_eq. intros w.
  by rewrite Hlook1, Hlook2, (last_line_of_Permutation f f' w Hp Hnd).
Qed.

End LoadingMore.

(** ** More on the weight-matrix loop *)

Section MatrixMore.

Context {F : Type} (zero : F).
Implicit Types (M : list (list F)) (ei : gmap string (list F)).
Implicit Types (word_index : list (string * Z)).

Lemma broadcast_row_length cols (v row : list F) :
  broadcast_row cols v = Ok row → length row = cols.
Proof.
  unfold broadcast_row. case_decide; [by intros [= <-]|].
  destruct v as [|x [|y v]]; [done| |done]. intros [= <-].
  apply length_replicate.
Qed.

Lemma setitem_row_shape M i v M' cols :
  setitem_row M i v = Ok M' →
  length M' = length M
  ∧ (Forall (fun row => length row = cols) M →
     Forall (fun row => length row = cols) M').
Proof.
  unfold setitem_row. destruct (_ || _); [done|].
  destruct (M !! _) as [old|] eqn:Hold; [|done].
  destruct (broadcast_row (length old) v) as [row|] eqn:Hrow; [|done].
  simpl. intros [= <-]. split; [by rewrite length_insert|].
  intros HM. apply Forall_insert; [done|].
  apply broadcast_row_length in Hrow. rewrite Hrow.
  by eapply (proj1 (Forall_lookup _ _) HM).
Qed.

Lemma fill_rows_shape ei word_index M M' cols :
  for_each (fill_row ei) word_index M = Ok M' →
  length M' = length M
  ∧ (Forall (fun row => length row = cols) M →
     Forall (fun row => length row = cols) M').
Proof.
  revert M. induction word_index as [|[w i] rest IH]; intros M; simpl.
  - by intros [= <-].
  - destruct (ei !! w) as [v|].
    + destruct (setitem_row M i v) as [M1|] eqn:H1; [|done]. simpl.
      intros Hrest. apply (setitem_row_shape _ _ _ _ cols) in H1 as [Hl1 Hc1].
      apply IH in Hrest as [Hl Hc]. split; [congruence|auto].
    + simpl. apply IH.
Qed.

(** X6.  Whenever the loop ends without an exception, the matrix still has
    [vocab_size] rows of 100 columns: the shape the Embedding layer is
    declared with. *)
Theorem weight_matrix_keeps_its_shape word_index ei M :
  build_embedding_matrix zero word_index ei = Ok M →
  length M = vocab_size word_index
  ∧ Forall (fun row => length row = 100) M.
Proof.
  unfold build_embedding_matrix. intros H.
  apply (fill_rows_shape _ _ _ _ 100) in H as [Hl Hc]. split.
  - rewrite Hl. apply length_replicate.
  - apply Hc, Forall_replicate, length_replicate.
Qed.

Lemma fill_rows_unknown ei word_index M :
  Forall (fun item => ei !! item.1 = None) word_index →
  for_each (fill_row ei) word_index M = Ok M.
Proof.
  induction 1 as [|[w i] rest Hw _ IH]; simpl; [done|].
  simpl in Hw. by rewrite Hw.
Qed.

(** X7.  When the dictionary has none of the tokenizer's words, nothing is
    written and no index is checked: the matrix stays zero, whatever the
    indices are. *)
Theorem unknown_words_leave_zeros word_index ei :
  Forall (fun item => ei !! item.1 = None) word_index →
  build_embedding_matrix zero word_index ei
  = Ok (zeros zero (vocab_size word_index) 100).
Proof. apply fill_rows_unknown. Qed.


(** X9.  The first word whose vector has neither 100 coefficients nor one
    ends the loop with ValueError, its index being a row of the matrix. *)
Theorem wrong_dimension_raises_ValueError
    (before after : list (string * Z)) w i ei v M :
  let word_index := before ++ (w, i) :: after in
  for_each (fill_row ei) before (zeros zero (vocab_size word_index) 100) = Ok M →
  ei !! w = Some v →
  (- Z.of_nat (vocab_size word_index) ≤ i < Z.of_nat (vocab_size word_index))%Z →
  length v ≠ 100 → length v ≠ 1 →
  build_embedding_matrix zero word_index ei
  = Raise (Failure ValueError (InLibraryCall "ndarray.__setitem__")).
Proof.
  intros word_index Hbefore Hw Hi H100 H1. unfold build_embedding_matrix.
  subst word_index. rewrite for_each_app, Hbefore. simpl. rewrite Hw.
  apply (fill_rows_shape _ _ _ _ 100) in Hbefore as [Hl Hc].
  unfold zeros in Hl, Hc. rewrite length_replicate in Hl.
  specialize (Hc (Forall_replicate _ _ _ (length_replicate _ _))).
  set (n := vocab_size (before ++ (w, i) :: after)) in *.
  unfold setitem_row. rewrite Hl.
  assert (((i <? - Z.of_nat n) || (Z.of_nat n <=? i))%Z = false) as -> by lia.
  destruct (lookup_lt_is_Some_2 M (Z.to_nat (if (i <? 0)%Z then (i + Z.of_nat n)%Z else i)))
    as [old Hold].
  { rewrite Hl. destruct (i <? 0)%Z eqn:E; lia. }
  rewrite Hold. rewrite Forall_lookup in Hc. rewrite (Hc _ _ Hold).
  unfold broadcast_row. rewrite decide_False by done.
  by destruct v as [|x [|y v']].
Qed.

Lemma last_writer_cons ei w i rest k :
  last_writer ei ((w, i) :: rest) k
  = match last_writer ei rest k with
    | Some item => Some item
    | None => if decide (Z.to_nat i = k ∧ is_Some (ei !! w))
              then Some (w, i) else None
    end.
Proof.
  unfold last_writer. rewrite filter_cons. simpl.
  destruct (decide (Z.to_nat i = k ∧ is_Some (ei !! w))); [|by destruct (last _)].
  destruct (filter _ rest) as [|l ls] eqn:E; [done|].
  rewrite last_cons. by destruct (last (l :: ls)).
Qed.

Lemma fill_rows_last_writer ei rest M0 :
  hundred_dimensional ei →
  Forall (fun row => length row = 100) M0 →
  Forall (fun item => (0 ≤ item.2 < Z.of_nat (length M0))%Z) rest →
  ∃ M, for_each (fill_row ei) rest M0 = Ok M
       ∧ ∀ k, M !! k = match last_writer ei rest k with
                       | Some item => Some (row_for zero ei item.1)
                       | None => M0 !! k
                       end.
Proof.
  intros Hei. revert M0.
  induction rest as [|[w i] rest IH]; intros M0 Hc Hr.
  - by exists M0.
  - apply Forall_cons in Hr as [Hi Hr]. simpl in Hi.
    cbn [for_each]. unfold fill_row at 1.
    destruct (ei !! w) as [v|] eqn:Ew.
    + rewrite setitem_row_in_range; [|lia|done|by eapply Hei]. simpl.
      destruct (IH (<[Z.to_nat i := v]> M0)) as (M & HM & Hlook).
      { apply Forall_insert; [done|by eapply Hei]. }
      { by rewrite length_insert. }
      exists M. split; [done|]. intros k.
      rewrite Hlook, last_writer_cons. destruct (last_writer ei rest k); [done|].
      case_decide as E.
      * destruct E as [<- _]. rewrite list_lookup_insert_eq by lia.
        unfold row_for. simpl. by rewrite Ew.
      * rewrite list_lookup_insert_ne; [done|].
        intros <-. apply E. split; [done|]. by rewrite Ew.
    + simpl. destruct (IH M0 Hc Hr) as (M & HM & Hlook).
      exists M. split; [done|]. intros k.
      rewrite Hlook, last_writer_cons. destruct (last_writer ei rest k); [done|].
      case_decide as E; [|done]. destruct E as [_ [? E]]. by rewrite Ew in E.
Qed.

(** X10.  With hundred-dimensional vectors and indices that are rows of the
    matrix, the loop ends without an exception, and each row holds the
    vector of the last item of the tokenizer's index that has this row
    as its index and a word the dictionary knows; a row no such item
    names is zero.  Indices need not be distinct: of two words with the
    same index the later one wins. *)
Theorem weight_matrix_last_write_wins word_index ei :
  hundred_dimensional ei →
  Forall (fun item => (0 ≤ item.2 < Z.of_nat (vocab_size word_index))%Z) word_index →
  ∃ M, build_embedding_matrix zero word_index ei = Ok M
       ∧ ∀ k, k < vocab_size word_index →
              M !! k = Some (match last_writer ei word_index k with
                             | Some item => row_for zero ei item.1
                             | None => zero_row zero
                             end).
Proof.
  intros Hei Hr. unfold build_embedding_matrix.
  destruct (fill_rows_last_writer ei word_index
              (zeros zero (vocab_size word_index) 100) Hei) as (M & HM & Hlook).
  { apply Forall_replicate, length_replicate. }
  { unfold zeros. by rewrite length_replicate. }
  exists M. split; [done|]. intros k Hk. rewrite Hlook.
  destruct (last_writer ei word_index k); [done|].
  unfold zeros. by rewrite lookup_replicate_2.
Qed.

Lemma for_each_ext {A S} (body1 body2 : S → A → result S) xs acc :
  (∀ x acc', x ∈ xs → body1 acc' x = body2 acc' x) →
  for_each body1 xs acc = for_each body2 xs acc.
Proof.
  revert acc. induction xs as [|x xs IH]; intros acc Hext; simpl; [done|].
  rewrite (Hext x acc) by (by left).
  destruct (body2 acc x); simpl; [|done].
  apply IH. intros y acc' Hy. apply Hext. by right.
Qed.

(** X11.  The loop looks up only the tokenizer's words: dropping every other
    word from the dictionary beforehand gives the same matrix, or the
    same exception. *)
Theorem only_known_words_matter word_index ei :
  build_embedding_matrix zero word_index (known_words word_index ei)
  = build_embedding_matrix zero word_index ei.
Proof.
  unfold build_embedding_matrix. apply for_each_ext.
  intros [w i] M Hin. unfold fill_row.
  assert (known_words word_index ei !! w = ei !! w) as ->; [|done].
  unfold known_words. apply option_eq. intros v.
  rewrite map_lookup_filter_Some. simpl. split; [by intros [? _]|].
  intros Hv. split; [done|]. apply list_elem_of_fmap. by exists (w, i).
Qed.

End MatrixMore.

(** ** The two loops together *)

Section Together.

Context {F : Type} (parse_float : string -> option F) (zero : F).

Lemma load_cell_well_formed (fs : files) (f : list string) :
  fs !! "glove.6B.100d.txt" = Some (Text f) →
  Forall (fun line => well_formed parse_float line = true) f →
  ∃ d, load_cell parse_float fs
       = Ok (d, "Loaded " +:+ pretty (length (distinct_first_tokens f))
                +:+ " word vectors.")
       ∧ load_embeddings parse_float f = Ok d
       ∧ ∀ w, d !! w = last_line_of w f ≫= coefficients parse_float.
Proof.
  intros Hfile Hf.
  destruct (load_from parse_float ∅ f Hf) as (d & Hd & Hlook & Hdom).
  assert (size d = length (distinct_first_tokens f)) as Hsize.
  { rewrite <- size_dom, Hdom, dom_empty_L, (left_id_L ∅ (∪)).
    apply size_distinct. }
  exists d. split_and!; [|done|].
  - unfold load_cell, open, load_embeddings, loaded_message.
    rewrite Hfile. simpl. rewrite Hd. simpl. by rewrite Hsize.
  - intros w. rewrite Hlook. destruct (last_line_of w f); [done|].
    apply lookup_empty.
Qed.

(** X12.  On a file whose lines all hold a word and a hundred numbers, and with
    the tokenizer's indices distinct in 1..len(t.word_index), the two
    cells run to the end: they print the number of distinct words of the
    file, and the row of each tokenizer word holds the numbers of the
    last line of the file that starts with this word, or zeros when no
    line does. *)
Theorem glove_cells_fill_the_matrix_from_the_file
    (fs : files) (f : list string) (word_index : list (string * Z)) :
  fs !! "glove.6B.100d.txt" = Some (Text f) →
  Forall (fun line => well_formed parse_float line = true) f →
  Forall (fun line => length (split line) = 101) f →
  tokenizer_indices word_index →
  ∃ M, glove_cells parse_float zero fs word_index
       = Ok ("Loaded " +:+ pretty (length (distinct_first_tokens f))
             +:+ " word vectors.", M)
       ∧ length M = vocab_size word_index
       ∧ ∀ w i, (w, i) ∈ word_index →
           M !! Z.to_nat i
           = Some (default (replicate 100 zero)
                           (last_line_of w f ≫= coefficients parse_float)).
Proof.
  intros Hfile Hf H101 Htok.
  destruct (load_cell_well_formed fs f Hfile Hf) as (d & Hcell & Hload & Hlook).
  assert (hundred_dimensional d) as Hd.
  { intros w v Hv.
    destruct (loaded_entry parse_float f d w v Hload Hv) as (line & Hin & Hw & Hc & _).
    rewrite Forall_forall in H101. specialize (H101 _ Hin).
    pose proof (coefficients_length parse_float line v (mk_is_Some _ _ Hw) Hc).
    lia. }
  destruct (build_aligned zero d word_index Hd Htok) as (M & HM & [Hrows _ _ Hseen _]).
  exists M. split_and!; [|done|].
  - unfold glove_cells. rewrite Hcell. simpl. by rewrite HM.
  - intros w i Hin. rewrite (Hseen w i Hin). unfold row_for. by rewrite Hlook.
Qed.

End Together.

(** ** The features and the label *)

Section PimaProofs.

Context {V : Type}.

Lemma split_row (r : list V) :
  length r = 9 → ∃ y, r !! 8 = Some y ∧ take 8 (drop 0 r) ++ [y] = r.
Proof.
  intros Hr. do 9 (destruct r as [|? r]; [done|]). destruct r; [|done].
  eauto.
Qed.

(** X13.  The array that [read_csv] gives with the nine names has nine
    columns; then [Y] is the column named [class], [X] holds the eight
    columns before it, and putting each row of [X] and its entry of [Y]
    together gives back the row of the data: no column is lost and the
    label is not among the features.  An array with fewer than nine
    columns has no column 8: IndexError. *)
Theorem features_and_label_partition_the_rows :
  (∀ array : Pima.ndarray (V := V),
     Pima.rectangular array → Pima.ncols array = length Pima.names →
     ∃ Y, Pima.features_and_label array = Ok (Pima.slice_columns array 0 8, Y)
          ∧ Pima.ncols (Pima.slice_columns array 0 8) = 8
          ∧ length Y = length (Pima.rows array)
          ∧ zip_with (fun x y => x ++ [y])
                     (Pima.rows (Pima.slice_columns array 0 8)) Y
            = Pima.rows array)
  ∧ take 8 Pima.names ++ ["class"] = Pima.names
  ∧ (∀ array : Pima.ndarray (V := V),
       (Pima.ncols array ≤ 8)%nat →
       Pima.features_and_label array
       = Raise (Failure IndexError (InLibraryCall "ndarray.__getitem__"))).
Proof.
  split_and!; [|reflexivity|].
  - intros [n rs] Hrect Hn. unfold Pima.rectangular in Hrect.
    simpl in *. subst n.
    exists (omap (fun r => r !! 8) rs).
    unfold Pima.features_and_label, Pima.column, Pima.slice_columns. simpl.
    split_and!; [done|done| |].
    + induction Hrect as [|r rs Hr _ IH]; csimpl; [done|].
      destruct (split_row r Hr) as (y & Hy & _). rewrite Hy. simpl. by rewrite IH.
    + induction Hrect as [|r rs Hr _ IH]; csimpl; [done|].
      destruct (split_row r Hr) as (y & Hy & Hglue). rewrite Hy. simpl.
      by rewrite IH, Hglue.
  - intros [n rs] Hn. simpl in Hn.
    unfold Pima.features_and_label, Pima.column. simpl.
    by rewrite decide_False by lia.
Qed.

End PimaProofs.

(** ** Names and data in the cells *)

(** X14.  Each complete listing of the word-embedding notebook, each cell of
    the pipelines notebook and each chunk of the R document binds every
    name before it reads it: run on its own, in a fresh interpreter, it
    meets no unbound name. *)
Theorem listings_run_on_their_own :
  Forall (fun c => standalone Python c = Completed)
         [learned_embedding_listing; glove_listing; pipeline_1; pipeline_2]
  ∧ Forall (fun c => standalone R c = Completed)
           (cells nonlinear_classification_in_R).
Proof. split; by repeat constructor. Qed.

(** X15.  Run cell by cell from the top in one kernel, every import and
    call that is reached taken to return, the word-embedding notebook
    stops in its very first code cell: [Embedding] is imported only in
    the complete listing further down.  Every cell but the two complete
    listings reads a name that no earlier cell has bound, or is no code
    at all.  In the one-hot cell and in the loading cell that read stands
    in the element of a comprehension and in the body of the loop over
    the file: it raises NameError once the element or the body runs, and
    never if there is no document or no line.  The other reads stand in
    the top level of their cell, whose run they end with NameError.  The
    two listings read no unbound name. *)
Theorem word_embedding_notebook_from_the_top :
  top_to_bottom word_embedding_notebook
  = [NameError "Embedding"; NameError "array"; PossibleNameError "one_hot";
     NameError "pad_sequences"; NameError "Sequential"; NameError "model";
     Completed; SyntaxError;
     NameError "Tokenizer"; PossibleNameError "asarray"; NameError "zeros";
     NameError "embedding_matrix"; Completed]
  ∧ cells word_embedding_notebook !! 2 = Some (Code one_hot_encode)
  ∧ cells word_embedding_notebook !! 6 = Some learned_embedding_listing
  ∧ cells word_embedding_notebook !! 9 = Some (Code load_glove)
  ∧ cells word_embedding_notebook !! 12 = Some glove_listing.
Proof. split_and!; reflexivity. Qed.

(** X16.  In both cells of the pipelines notebook the raw features [X], the
    labels [Y] and the pipeline [model] are read by one statement only,
    the call of [cross_val_score]; the cell itself never fits, applies or
    scores a transform or a model, so every fitting happens inside the
    cross-validation. *)
Theorem cross_val_score_is_the_only_consumer :
  Forall (fun c =>
            let evaluation :=
              [assign "results"
                 (call "cross_val_score" [Name "model"; Name "X"; Name "Y"]
                       [("cv", Name "kfold")])] in
            readers "X" c = evaluation
            ∧ readers "Y" c = evaluation
            ∧ readers "model" c = evaluation
            ∧ calls_any ["fit"; "fit_transform"; "transform"; "predict"; "score"] c
              = false)
         (cells pipelines_notebook).
Proof. by repeat constructor. Qed.

(** X17.  The Keras examples and the R recipes measure accuracy on the data
    the model was fitted on: every [model.evaluate] gets the two
    arguments [padded_docs, labels] of every [model.fit], and every R
    recipe fits on [iris] and predicts on the feature columns of [iris]. *)
Theorem accuracy_is_measured_on_the_training_data :
  Forall (fun cs => cs_args cs = [Name "padded_docs"; Name "labels"])
         (calls_to "fit" word_embedding_notebook
          ++ calls_to "evaluate" word_embedding_notebook)
  ∧ length (calls_to "fit" word_embedding_notebook) = 3
  ∧ length (calls_to "evaluate" word_embedding_notebook) = 3
  ∧ Forall (fun cs => assoc "data" (cs_kwargs cs) = Some (Name "iris"))
           (filter (fun cs => cs_callee cs ∈ model_apis)
                   (doc_calls nonlinear_classification_in_R))
  ∧ length (filter (fun cs => cs_callee cs ∈ model_apis)
                   (doc_calls nonlinear_classification_in_R)) = 8
  ∧ Forall (fun cs => take 2 (cs_args cs)
                      = [Name "fit";
                         Subscript (Name "iris") [Missing; BinOp ":" (Int 1) (Int 4)]])
           (calls_to "predict" nonlinear_classification_in_R)
  ∧ length (calls_to "predict" nonlinear_classification_in_R) = 8.
Proof.
  split_and!; [by repeat constructor|reflexivity|reflexivity|
               by repeat constructor|reflexivity|
               by repeat constructor|reflexivity].
Qed.

(** ** The further properties on sample inputs *)

Lemma the_is_a_token : is_token "the".
Proof.
  eapply (loaded_keys_are_tokens parse_int repeated_word _ "the");
    [reflexivity|by_decide].
Defined.

Lemma the_has_two_numbers :
  ∃ line, line ∈ repeated_word ∧ first_token line = Some "the"
          ∧ mapM parse_int (drop 1 (split line)) = Some [5; 6]%Z
          ∧ length (split line) = 3.
Proof.
  eapply (loaded_vector_has_one_number_per_token parse_int repeated_word _ "the");
    reflexivity.
Defined.

Lemma bad_number_is_a_ValueError :
  load_embeddings parse_int bad_number
  = Raise (Failure ValueError (InLibraryCall "asarray")).
Proof.
  apply (bad_number_raises_ValueError parse_int
           ["the 1 2" +:+ newline] [] ("of 3 x" +:+ newline)
           (<["the" := [1; 2]%Z]> ∅));
    [reflexivity|by_decide|reflexivity].
Defined.

Lemma repeated_word_in_two_parts :
  load_embeddings parse_int (two_words ++ ["the 5 6" +:+ newline])
  = Ok (<["the" := [5; 6]%Z]> ∅
        ∪ <["of" := [3; 4]%Z]> (<["the" := [1; 2]%Z]> ∅)).
Proof.
  apply (load_concatenation parse_int two_words ["the 5 6" +:+ newline]);
    reflexivity.
Defined.

Lemma two_words_in_either_order :
  load_embeddings parse_int (reverse two_words)
  = Ok (<["of" := [3; 4]%Z]> (<["the" := [1; 2]%Z]> ∅)).
Proof.
  apply (load_is_order_independent parse_int two_words (reverse two_words));
    [apply perm_swap|by_decide|reflexivity].
Defined.

Lemma broadcast_row_keeps_the_shape :
  length [replicate 100 0%Z; replicate 100 5%Z] = vocab_size one_word
  ∧ Forall (fun row => length row = 100) [replicate 100 0%Z; replicate 100 5%Z].
Proof.
  apply (weight_matrix_keeps_its_shape 0%Z one_word one_coefficient).
  reflexivity.
Defined.

Lemma far_index_of_unknown_word_is_harmless :
  build_embedding_matrix 0%Z far_index (∅ : gmap string (list Z))
  = Ok (zeros 0%Z (vocab_size far_index) 100).
Proof.
  apply (unknown_words_leave_zeros 0%Z far_index ∅).
  repeat constructor.
Defined.


(** An index that does not convert to the 64-bit index type. *)
Example huge_index_is_an_OverflowError :
  build_embedding_matrix 0%Z [("a", 2 ^ 63)%Z] hundred_ones
  = Raise (Failure OverflowError (InLibraryCall "ndarray.__setitem__")).
Proof. reflexivity. Qed.

Lemma fifty_dimensions_are_a_ValueError :
  build_embedding_matrix 0%Z one_word fifty_ones
  = Raise (Failure ValueError (InLibraryCall "ndarray.__setitem__")).
Proof.
  apply (wrong_dimension_raises_ValueError 0%Z [] [] "a" 1%Z fifty_ones
           (replicate 50 1%Z) (zeros 0%Z 2 100));
    [reflexivity|reflexivity|by vm_compute|by_decide|by_decide].
Defined.

Lemma shared_index_goes_to_the_later_word :
  ∃ M, build_embedding_matrix 0%Z shared_index ones_and_twos = Ok M
       ∧ ∀ k, k < vocab_size shared_index →
              M !! k = Some (match last_writer ones_and_twos shared_index k with
                             | Some item => row_for 0%Z ones_and_twos item.1
                             | None => zero_row 0%Z
                             end).
Proof.
  apply (weight_matrix_last_write_wins 0%Z shared_index ones_and_twos);
    by_decide.
Defined.

Lemma sample_line_fills_row_one :
  ∃ M, glove_cells keep "0" {["glove.6B.100d.txt" := Text sample_file]} [("the", 1%Z)]
       = Ok ("Loaded " +:+ pretty (length (distinct_first_tokens sample_file))
             +:+ " word vectors.", M)
       ∧ length M = vocab_size [("the", 1%Z)]
       ∧ ∀ w i, (w, i) ∈ [("the", 1%Z)] →
           M !! Z.to_nat i
           = Some (default (replicate 100 "0")
                           (last_line_of w sample_file ≫= coefficients keep)).
Proof.
  apply (glove_cells_fill_the_matrix_from_the_file keep "0"
           {["glove.6B.100d.txt" := Text sample_file]} sample_file [("the", 1%Z)]);
    [reflexivity|repeat constructor|repeat constructor|by_decide].
Defined.

Lemma two_records_are_partitioned :
  ∃ Y, Pima.features_and_label two_records
       = Ok (Pima.slice_columns two_records 0 8, Y)
       ∧ Pima.ncols (Pima.slice_columns two_records 0 8) = 8
       ∧ length Y = length (Pima.rows two_records)
       ∧ zip_with (fun x y => x ++ [y])
                  (Pima.rows (Pima.slice_columns two_records 0 8)) Y
         = Pima.rows two_records.
Proof.
  apply (proj1 features_and_label_partition_the_rows two_records);
    [repeat constructor|reflexivity].
Defined.
